(** * Tracktable: float comparison, terrestrial domain, fraction sampling

    A shallow embedding of

    - [tracktable/Core/FloatingPointComparison.h]
      ([almost_zero], [almost_equal]),
    - [tracktable/Domain/Terrestrial.h]
      ([TerrestrialPoint::ECEF_from_km], the [ECEF] wrappers of
      [TerrestrialTrajectoryPoint], the terrestrial [distance] and
      [speed_between], the delegated point algorithms),
    - [tracktable/Core/detail/algorithm_signatures/PointAtFraction.h]
      (the unspecialised [point_at_time_fraction] and
      [point_at_length_fraction] templates and their drivers).

    C++ [double] is IEEE 754 binary64.  It is modelled by [spec_float]
    with precision 53 and maximal exponent 1024, whose operations round
    to nearest, ties to even, and compute inside Rocq. *)

From Stdlib Require Import ZArith Bool Lia Reals Lra.
From Stdlib Require Import Floats.SpecFloat.
From stdpp Require Import gmap strings.

(** ** Binary64 arithmetic *)

Module Double.

Definition prec : Z := 53.
Definition emax : Z := 1024.

Definition double : Type := spec_float.

Definition add : double -> double -> double := SFadd prec emax.
Definition sub : double -> double -> double := SFsub prec emax.
Definition mul : double -> double -> double := SFmul prec emax.
Definition div : double -> double -> double := SFdiv prec emax.
Definition sqrt : double -> double := SFsqrt prec emax.
Definition abs : double -> double := SFabs.
Definition opp : double -> double := SFopp.

(** [a == b] and [a < b] of C++: both are false as soon as an operand
    is NaN, and [+0 == -0]. *)
Definition eqb : double -> double -> bool := SFeqb.
Definition ltb : double -> double -> bool := SFltb.

(** Conversion of an integer to [double] ([static_cast<double>], and
    integer literals used where a [double] is expected). *)
Definition of_Z (z : Z) : double := binary_normalize prec emax z 0 false.

(** The decimal literal [m * 10^(-k)].  Both [m] and [10^k] are below
    [2^53] at every use, hence exact, and the division is correctly
    rounded: the value is the [double] nearest to the decimal, as the
    compiler reads the literal. *)
Definition literal (m : Z) (k : Z) : double :=
  div (of_Z m) (of_Z (10 ^ k)).

Definition zero : double := S754_zero false.
Definition one : double := of_Z 1.

(** [std::numeric_limits<double>::epsilon()] is [2^-52] and
    [std::numeric_limits<double>::min()] is [2^-1022], the smallest
    positive normal value. *)
Definition numeric_limits_epsilon : double :=
  S754_finite false 4503599627370496 (-104).
Definition numeric_limits_min : double :=
  S754_finite false 4503599627370496 (-1074).

Definition is_nan (x : double) : bool :=
  match x with S754_nan => true | _ => false end.

Definition is_finite (x : double) : bool :=
  match x with S754_zero _ | S754_finite _ _ _ => true | _ => false end.

Definition is_zero (x : double) : bool :=
  match x with S754_zero _ => true | _ => false end.

(** The sign bit ([std::signbit]); NaN carries no sign in this model. *)
Definition signbit (x : double) : bool :=
  match x with
  | S754_zero s | S754_infinity s | S754_finite s _ _ => s
  | S754_nan => false
  end.

(** A rounding record whose mantissa is not negative. *)
Definition shr_nonneg (mrs : shr_record) : Prop := (0 <= shr_m mrs)%Z.

End Double.

Abbreviation double := Double.double.

(** ** FloatingPointComparison.h *)

Module settings.
Definition EQUALITY_RELATIVE_TOLERANCE : double := Double.literal 1 5.
Definition ZERO_ABSOLUTE_TOLERANCE : double := Double.literal 1 5.
End settings.

(** [almost_zero<double>]; the default [epsilon] is
    [settings::EQUALITY_RELATIVE_TOLERANCE]. *)
Definition almost_zero (z epsilon : double) : bool :=
  Double.ltb (Double.abs z) epsilon.

(** [almost_equal<double>]; the default [tolerance] is
    [settings::EQUALITY_RELATIVE_TOLERANCE]. *)
Definition almost_equal (a b tolerance : double) : bool :=
  let abs_a := Double.abs a in
  let abs_b := Double.abs b in
  let diff := Double.abs (Double.sub a b) in
  if Double.eqb a b then
    true
  else if Double.eqb a (Double.of_Z 0) || Double.eqb b (Double.of_Z 0)
          || Double.ltb diff Double.numeric_limits_epsilon then
    Double.ltb diff (Double.mul tolerance Double.numeric_limits_min)
  else
    Double.ltb (Double.div diff (Double.add abs_a abs_b)) tolerance.

(** ** Scalars

    [ECEF_from_km] is a straight-line arithmetic expression.  It is
    written once over the operations it uses, so that the same
    expression tree can be read in binary64, as the program runs it,
    and in exact real arithmetic, as the WGS84 formula is stated. *)

Class Arith (T : Type) := {
  literal : Z -> Z -> T;         (* the decimal m * 10^(-k) *)
  add : T -> T -> T;
  sub : T -> T -> T;
  mul : T -> T -> T;
  div : T -> T -> T;
  sqrt : T -> T;
  sin : T -> T;
  cos : T -> T
}.

Declare Scope arith_scope.
Delimit Scope arith_scope with A.
Infix "+" := add : arith_scope.
Infix "-" := sub : arith_scope.
Infix "*" := mul : arith_scope.
Infix "/" := div : arith_scope.

(** Exact real arithmetic. *)
Definition Arith_R : Arith R := {|
  literal m k := (IZR m / IZR (10 ^ k))%R;
  add := Rplus; sub := Rminus; mul := Rmult; div := Rdiv;
  sqrt := R_sqrt.sqrt; sin := Rtrigo_def.sin; cos := Rtrigo_def.cos
|}.

(** Binary64 arithmetic; [sin] and [cos] are those of the C library,
    which the program links against. *)
Definition Arith_double (libm_sin libm_cos : double -> double) : Arith double := {|
  literal := Double.literal;
  add := Double.add; sub := Double.sub; mul := Double.mul; div := Double.div;
  sqrt := Double.sqrt; sin := libm_sin; cos := libm_cos
|}.

(** ** Data model *)

(** [PointCartesian<3>]: three coordinates, built from the array [pt]. *)
Record PointCartesian3 (T : Type) := mkPointCartesian3 {
  pt0 : T; pt1 : T; pt2 : T
}.
Arguments mkPointCartesian3 {T}.
Arguments pt0 {T}.
Arguments pt1 {T}.
Arguments pt2 {T}.

(** [PointLonLat]: coordinate 0 is the longitude and coordinate 1 the
    latitude, both in degrees. *)
Record PointLonLat := mkPointLonLat {
  get0 : double;
  get1 : double
}.

(** [class TerrestrialPoint : public PointLonLat]; the constructor is
    the converting constructor [TerrestrialPoint(Superclass const&)]. *)
Record TerrestrialPoint := mkTerrestrialPoint {
  TerrestrialPoint_Superclass : PointLonLat
}.

(** Modelled from the spec: the [Timestamp] of a trajectory point
    (declared in [tracktable/Core/Timestamp.h]).  It is a
    [boost::posix_time::ptime]; a value is its count of microsecond
    ticks.  The difference of two timestamps is a [time_duration], whose
    [total_seconds()] drops the fractional second (integer division
    truncates toward zero). *)
Definition Timestamp : Type := Z.

Definition time_duration : Type := Z.

Definition timestamp_minus (t1 t2 : Timestamp) : time_duration := (t1 - t2)%Z.

Definition total_seconds (d : time_duration) : Z := (d ÷ 1000000)%Z.

(** Modelled from the spec: the Property Store of a trajectory point
    (declared in [tracktable/Core/PropertyMap.h]), a map
    from property name to a real number, a text or a timestamp. *)
Inductive PropertyValueT :=
| RealProperty (v : double)
| StringProperty (s : string)
| TimestampProperty (t : Timestamp).

(** Modelled from the spec: [TrajectoryPoint<BasePointT>] (declared in
    [tracktable/Core/TrajectoryPoint.h]), a base point with an object
    id, a timestamp and the Property Store. *)
Record TrajectoryPoint (BasePointT : Type) := mkTrajectoryPoint {
  base_point : BasePointT;
  ObjectId : string;
  UpdateTime : Timestamp;
  Properties : gmap string PropertyValueT
}.
Arguments mkTrajectoryPoint {BasePointT}.
Arguments base_point {BasePointT}.
Arguments ObjectId {BasePointT}.
Arguments UpdateTime {BasePointT}.
Arguments Properties {BasePointT}.

(** [class TerrestrialTrajectoryPoint : public
    TrajectoryPoint<TerrestrialPoint>]. *)
Record TerrestrialTrajectoryPoint := mkTerrestrialTrajectoryPoint {
  TerrestrialTrajectoryPoint_Superclass : TrajectoryPoint TerrestrialPoint
}.

Definition timestamp (p : TerrestrialTrajectoryPoint) : Timestamp :=
  UpdateTime (TerrestrialTrajectoryPoint_Superclass p).

(** The boost geometry registration
    ([TRACKTABLE_DELEGATE_BOOST_POINT_TRAITS]) lets the geometry library
    read a terrestrial point, and a terrestrial trajectory point, as the
    [PointLonLat] it derives from. *)
Class Geometry (G : Type) := as_PointLonLat : G -> PointLonLat.

#[export] Instance Geometry_TerrestrialPoint : Geometry TerrestrialPoint :=
  TerrestrialPoint_Superclass.

#[export] Instance Geometry_TerrestrialTrajectoryPoint :
  Geometry TerrestrialTrajectoryPoint :=
  fun p => TerrestrialPoint_Superclass
             (base_point (TerrestrialTrajectoryPoint_Superclass p)).

(** Exceptions, and the outcome of a call that may throw. *)
Inductive exception :=
| PropertyDoesNotExist (_property : string).

Inductive outcome (A : Type) :=
| Returns (a : A)
| Throws (e : exception).
Arguments Returns {A}.
Arguments Throws {A}.

Definition throws {A : Type} (o : outcome A) : bool :=
  match o with Throws _ => true | Returns _ => false end.

(** ** Terrestrial.h: the ECEF transform *)

(** [TerrestrialPoint::ECEF_from_km]. *)
Definition ECEF_from_km {T : Type} `{Arith T}
    (_longitude _latitude _altitude : T) : PointCartesian3 T :=
  let a := literal 6378137 3 in
  let e2 := (literal 81819190842622 15 * literal 81819190842622 15)%A in
  let sinLatitude := sin _latitude in
  let n := (a / sqrt (literal 1 0 - e2 * sinLatitude * sinLatitude))%A in
  let NAC := ((n + _altitude) * cos _latitude)%A in
  mkPointCartesian3
    (NAC * cos _longitude)%A
    (NAC * sin _longitude)%A
    ((n * (literal 1 0 - e2) + _altitude) * sinLatitude)%A.

Section Terrestrial.

(** What the program takes from outside this repository: the C
    library's [sin] and [cos], and the generic geometry primitive
    [boost::geometry::distance], which for longitude/latitude points
    returns the great-circle angle in radians. *)
Variable libm_sin libm_cos : double -> double.
Variable boost_geometry_distance : PointLonLat -> PointLonLat -> double.

(** What the program takes from [tracktable/Core/Conversions.h]: the
    degree-to-radian conversion, and the Earth radius that
    [radians_to_km] multiplies by. *)
Variable conversions_radians : double -> double.
Variable EARTH_RADIUS_IN_KM : double.

(** The value the non-throwing accessor hands back when the property
    is absent; [ECEF] multiplies it by the ratio and then throws. *)
Variable unspecified_placeholder : double.

Let double_arith : Arith double := Arith_double libm_sin libm_cos.
#[local] Existing Instance double_arith.

(** Modelled from the spec: [conversions::radians_to_km]
    ([tracktable/Core/Conversions.h]), the multiplication of an angle
    in radians by Earth's mean radius in kilometers. *)
Definition radians_to_km (radians : double) : double :=
  Double.mul radians EARTH_RADIUS_IN_KM.

(** Modelled from the spec: the non-throwing accessor
    [TrajectoryPoint::real_property(name, &ok)]
    ([tracktable/Core/TrajectoryPoint.h]).  It returns the stored real
    number and sets [ok]; when no real property of that name is
    stored it clears [ok] and returns a placeholder. *)
Definition real_property {BasePointT : Type}
    (self : TrajectoryPoint BasePointT) (name : string) : double * bool :=
  match Properties self !! name with
  | Some (RealProperty v) => (v, true)
  | _ => (unspecified_placeholder, false)
  end.

(** [TerrestrialTrajectoryPoint::ECEF(ratio, _altitudeString)].  A
    method receives the object and hands it back with its outcome;
    this one is [const]. *)
Definition ECEF (ratio : double) (_altitudeString : string)
    (this : TerrestrialTrajectoryPoint)
  : outcome (PointCartesian3 double) * TerrestrialTrajectoryPoint :=
  let '(v, ok) :=
    real_property (TerrestrialTrajectoryPoint_Superclass this) _altitudeString in
  let altitude := Double.mul ratio v in
  if negb ok then
    (Throws (PropertyDoesNotExist _altitudeString), this)
  else
    let longitude := conversions_radians (get0 (as_PointLonLat this)) in
    let latitude := conversions_radians (get1 (as_PointLonLat this)) in
    (Returns (ECEF_from_km longitude latitude altitude), this).

(** [TerrestrialTrajectoryPoint::ECEF_from_feet]; the default
    [_altitudeString] is ["altitude"]. *)
Definition ECEF_from_feet (_altitudeString : string)
    (this : TerrestrialTrajectoryPoint) :=
  let feetToKilometers :=
    Double.div (Double.literal 1 0) (Double.literal 3280839895013123 12) in
  ECEF feetToKilometers _altitudeString this.

(** [TerrestrialTrajectoryPoint::ECEF_from_meters]; the default
    [_altitudeString] is ["altitude"]. *)
Definition ECEF_from_meters (_altitudeString : string)
    (this : TerrestrialTrajectoryPoint) :=
  let metersToKilometers :=
    Double.div (Double.literal 1 0) (Double.literal 1000 0) in
  ECEF metersToKilometers _altitudeString this.

(** ** Terrestrial.h: distance and speed *)

(** [algorithms::distance<traits::domains::terrestrial>::apply]. *)
Definition distance {Geom1 Geom2 : Type} `{Geometry Geom1} `{Geometry Geom2}
    (from : Geom1) (to : Geom2) : double :=
  let distance_in_radians :=
    boost_geometry_distance (as_PointLonLat from) (as_PointLonLat to) in
  radians_to_km distance_in_radians.

(** [algorithms::speed_between<TerrestrialTrajectoryPoint>::apply]. *)
Definition speed_between (from to : TerrestrialTrajectoryPoint) : double :=
  let distance_traveled := distance from to in
  let seconds_elapsed :=
    Double.of_Z (total_seconds (timestamp_minus (timestamp to) (timestamp from))) in
  if almost_zero seconds_elapsed settings.EQUALITY_RELATIVE_TOLERANCE then
    Double.of_Z 0
  else
    Double.div (Double.mul (Double.literal 3600 0) distance_traveled)
               seconds_elapsed.

End Terrestrial.

(** ** Terrestrial.h: the delegated point algorithms *)

(** The point algorithms that [Terrestrial.h] delegates to the base
    point types ([spherical_coordinate_access], a coordinate accessor,
    is left out).  Each is a struct template [ALGORITHM<P>] with a
    static member [apply]. *)
Inductive ALGORITHM :=
| interpolate
| extrapolate
| bearing
| signed_turn_angle
| unsigned_turn_angle.

(** Modelled from the spec: the type of [ALGORITHM<P>::apply] (the
    signatures are declared in
    [tracktable/Core/detail/algorithm_signatures/]).  Interpolation and
    extrapolation take two points and a fraction and return a point; a
    bearing takes two points, a turn angle three, and both return an
    angle. *)
Definition apply_type (A : ALGORITHM) (P : Type) : Type :=
  match A with
  | interpolate | extrapolate => P -> P -> double -> P
  | bearing => P -> P -> double
  | signed_turn_angle | unsigned_turn_angle => P -> P -> P -> double
  end.

(** Modelled from the spec: [TRACKTABLE_DELEGATE(DERIVED, BASE,
    ALGORITHM)] ([tracktable/Domain/DomainMacros.h]).  It declares the
    specialisation [ALGORITHM<DERIVED>] as a struct deriving from
    [ALGORITHM<BASE>] with an empty body: the [apply] of the derived
    struct is the one it inherits. *)
Definition TRACKTABLE_DELEGATE (DERIVED BASE : Type) (A : ALGORITHM)
    (ALGORITHM_BASE_apply : apply_type A BASE) : apply_type A BASE :=
  ALGORITHM_BASE_apply.

(** Public inheritance: an object of the derived class binds to a
    reference to its base, and the derived class has a converting
    constructor from its base ([TerrestrialPoint(Superclass const&)],
    [TerrestrialTrajectoryPoint(Superclass const&)]). *)
Class Inherits (Derived Base : Type) := {
  upcast : Derived -> Base;
  from_Superclass : Base -> Derived
}.

#[export] Instance Inherits_TerrestrialPoint :
  Inherits TerrestrialPoint PointLonLat := {|
  upcast := TerrestrialPoint_Superclass;
  from_Superclass := mkTerrestrialPoint
|}.

#[export] Instance Inherits_TerrestrialTrajectoryPoint :
  Inherits TerrestrialTrajectoryPoint (TrajectoryPoint TerrestrialPoint) := {|
  upcast := TerrestrialTrajectoryPoint_Superclass;
  from_Superclass := mkTerrestrialTrajectoryPoint
|}.

(** A call [ALGORITHM<Derived>::apply(...)] on derived points when
    [apply] is inherited from [ALGORITHM<Base>]. *)
Definition call_inherited (A : ALGORITHM) {Derived Base : Type}
    `{Inherits Derived Base} : apply_type A Base -> apply_type A Derived :=
  match A with
  | interpolate | extrapolate =>
      fun apply left right t =>
        from_Superclass (apply (upcast left) (upcast right) t)
  | bearing =>
      fun apply from to => apply (upcast from) (upcast to)
  | signed_turn_angle | unsigned_turn_angle =>
      fun apply a b c => apply (upcast a) (upcast b) (upcast c)
  end.

Section Delegation.

(** The generic implementations on the base point types, from the core
    library. *)
Variable generic_PointLonLat : forall A, apply_type A PointLonLat.
Variable generic_TrajectoryPoint :
  forall A, apply_type A (TrajectoryPoint TerrestrialPoint).

(** [TT_DELEGATE_BASE_POINT_ALGORITHM(ALGORITHM)]. *)
Definition TT_DELEGATE_BASE_POINT_ALGORITHM (A : ALGORITHM)
  : apply_type A PointLonLat :=
  TRACKTABLE_DELEGATE TerrestrialPoint PointLonLat A (generic_PointLonLat A).

(** [TT_DELEGATE_TRAJECTORY_POINT_ALGORITHM(ALGORITHM)]. *)
Definition TT_DELEGATE_TRAJECTORY_POINT_ALGORITHM (A : ALGORITHM)
  : apply_type A (TrajectoryPoint TerrestrialPoint) :=
  TRACKTABLE_DELEGATE TerrestrialTrajectoryPoint
    (TrajectoryPoint TerrestrialPoint) A (generic_TrajectoryPoint A).

(** [algorithms::ALGORITHM<TerrestrialPoint>::apply] and
    [algorithms::ALGORITHM<TerrestrialTrajectoryPoint>::apply]. *)
Definition terrestrial_point_algorithm (A : ALGORITHM)
  : apply_type A TerrestrialPoint :=
  call_inherited A (TT_DELEGATE_BASE_POINT_ALGORITHM A).

Definition terrestrial_trajectory_point_algorithm (A : ALGORITHM)
  : apply_type A TerrestrialTrajectoryPoint :=
  call_inherited A (TT_DELEGATE_TRAJECTORY_POINT_ALGORITHM A).

(** What the specification says of these operations: the result of the
    generic implementation on the underlying base points, with no unit
    conversion. *)
Definition spec_forwarded {Derived Base : Type} `{Inherits Derived Base}
    (generic : forall A, apply_type A Base) (A : ALGORITHM)
  : apply_type A Derived :=
  match A as A0 return apply_type A0 Base -> apply_type A0 Derived with
  | interpolate => fun g p q t => from_Superclass (g (upcast p) (upcast q) t)
  | extrapolate => fun g p q t => from_Superclass (g (upcast p) (upcast q) t)
  | bearing => fun g p q => g (upcast p) (upcast q)
  | signed_turn_angle => fun g p q r => g (upcast p) (upcast q) (upcast r)
  | unsigned_turn_angle => fun g p q r => g (upcast p) (upcast q) (upcast r)
  end (generic A).

End Delegation.

(** ** PointAtFraction.h *)

Module PointAtFraction.

(** Instantiating a template either yields what it defines or stops the
    compilation with a diagnostic. *)
Inductive compilation (A : Type) :=
| Compiled (a : A)
| CompileError (diagnostic : string).
Arguments Compiled {A}.
Arguments CompileError {A}.

(** [BOOST_MPL_ASSERT_MSG(condition, MESSAGE, types)]: a compile-time
    assertion whose failure is reported under the name [MESSAGE]. *)
Definition BOOST_MPL_ASSERT_MSG (condition : bool) (MESSAGE : string)
  : compilation unit :=
  if condition then Compiled tt else CompileError MESSAGE.

Section Templates.

(** The trajectory types a program instantiates the templates with:
    their names, [sizeof], values and point types; and the explicit
    specialisations the program provides, each with its [apply]. *)
Variable TrajectoryT : Type.
Variable sizeof : TrajectoryT -> N.
Variable value : TrajectoryT -> Type.
Variable point_type : TrajectoryT -> Type.

Definition apply_t (T : TrajectoryT) : Type :=
  value T -> double -> point_type T.

Variable time_fraction_specialization : forall T, option (apply_t T).
Variable length_fraction_specialization : forall T, option (apply_t T).

(** A struct is known by its [apply] member, if it has one. *)
Definition struct_members (T : TrajectoryT) : Type := option (apply_t T).

(** The primary template [algorithms::point_at_time_fraction<T>]: its
    body is the assertion alone, and declares no [apply]. *)
Definition primary_point_at_time_fraction (T : TrajectoryT)
  : compilation (struct_members T) :=
  match BOOST_MPL_ASSERT_MSG (sizeof T =? 0)%N
          "POINT_AT_TIME_FRACTION_NOT_IMPLEMENTED_FOR_THIS_TRAJECTORY_TYPE" with
  | Compiled _ => Compiled None
  | CompileError d => CompileError d
  end.

(** The primary template [algorithms::point_at_length_fraction<T>]. *)
Definition primary_point_at_length_fraction (T : TrajectoryT)
  : compilation (struct_members T) :=
  match BOOST_MPL_ASSERT_MSG (sizeof T =? 0)%N
          "POINT_AT_LENGTH_FRACTION_NOT_IMPLEMENTED_FOR_THIS_TRAJECTORY_TYPE" with
  | Compiled _ => Compiled None
  | CompileError d => CompileError d
  end.

(** Template lookup: an explicit specialisation is preferred to the
    primary template. *)
Definition algorithms_point_at_time_fraction (T : TrajectoryT)
  : compilation (struct_members T) :=
  match time_fraction_specialization T with
  | Some apply => Compiled (Some apply)
  | None => primary_point_at_time_fraction T
  end.

Definition algorithms_point_at_length_fraction (T : TrajectoryT)
  : compilation (struct_members T) :=
  match length_fraction_specialization T with
  | Some apply => Compiled (Some apply)
  | None => primary_point_at_length_fraction T
  end.

(** Naming the member [apply] of a struct that has none is an error of
    its own. *)
Definition member_apply {T : TrajectoryT} (s : compilation (struct_members T))
  : compilation (apply_t T) :=
  match s with
  | Compiled (Some apply) => Compiled apply
  | Compiled None => CompileError "no member named apply"
  | CompileError d => CompileError d
  end.

(** The driver [tracktable::point_at_time_fraction<TrajectoryT>]. *)
Definition point_at_time_fraction (T : TrajectoryT)
  : compilation (value T -> double -> point_type T) :=
  match member_apply (algorithms_point_at_time_fraction T) with
  | Compiled apply => Compiled (fun path fraction => apply path fraction)
  | CompileError d => CompileError d
  end.

(** The driver [tracktable::point_at_length_fraction<TrajectoryT>]. *)
Definition point_at_length_fraction (T : TrajectoryT)
  : compilation (value T -> double -> point_type T) :=
  match member_apply (algorithms_point_at_length_fraction T) with
  | Compiled apply => Compiled (fun path fraction => apply path fraction)
  | CompileError d => CompileError d
  end.

End Templates.

(** The trajectory types of a program that specialises neither
    template: a terrestrial trajectory and a line string. *)
Inductive sample_type := TerrestrialTrajectory | LineString.

Definition sample_sizeof (T : sample_type) : N :=
  match T with TerrestrialTrajectory => 120 | LineString => 24 end.

Definition sample_value (T : sample_type) : Type :=
  match T with
  | TerrestrialTrajectory => list TerrestrialTrajectoryPoint
  | LineString => list TerrestrialPoint
  end.

Definition sample_point_type (T : sample_type) : Type :=
  match T with
  | TerrestrialTrajectory => TerrestrialTrajectoryPoint
  | LineString => TerrestrialPoint
  end.

End PointAtFraction.

(** ** Auxiliary definitions and sample inputs *)

(** The property store of a terrestrial trajectory point. *)
Definition property_store (p : TerrestrialTrajectoryPoint)
  : gmap string PropertyValueT :=
  Properties (TerrestrialTrajectoryPoint_Superclass p).

(** The store holds a real property under [name]. *)
Definition has_real_property (p : TerrestrialTrajectoryPoint) (name : string)
  : Prop :=
  exists v, property_store p !! name = Some (RealProperty v).

(** The whole seconds from the timestamp of [from] to that of [to];
    [speed_between] converts them to [double] and divides by them. *)
Definition elapsed_seconds (from to : TerrestrialTrajectoryPoint) : Z :=
  total_seconds (timestamp_minus (timestamp to) (timestamp from)).

(** Splits a conjunction into its conjuncts, and nothing else. *)
Ltac split_conj := repeat match goal with |- _ /\ _ => split end.

(** The literals of the comparator's test cases. *)
Definition lit_1e_10 : double := Double.literal 1 10.
Definition lit_1_00002 : double := Double.literal 100002 5.
Definition lit_1_1 : double := Double.literal 11 1.

(** Low-order Taylor polynomials in binary64.  They stand in for the C
    library's [sin] and [cos] where the embedding is run on concrete
    inputs; like the library's functions they are exact at zero. *)
Definition taylor_sin (x : double) : double :=
  Double.sub x (Double.div (Double.mul (Double.mul x x) x) (Double.of_Z 6)).

Definition taylor_cos (x : double) : double :=
  Double.sub Double.one (Double.div (Double.mul x x) (Double.of_Z 2)).

(** A degree-to-radian conversion in binary64, multiplying by the
    literal [0.017453292519943]; it stands in for
    [conversions::radians] on concrete inputs. *)
Definition radians_by_factor (degrees : double) : double :=
  Double.mul degrees (Double.literal 17453292519943 15).

(** A trajectory point at longitude -106.5 and latitude 35 degrees with
    an altitude of 10000 stored under ["altitude"] and a text stored
    under ["callsign"], and the same point without properties. *)
Definition albuquerque : TerrestrialPoint :=
  mkTerrestrialPoint
    (mkPointLonLat (Double.opp (Double.literal 1065 1)) (Double.of_Z 35)).

Definition sample_point : TerrestrialTrajectoryPoint :=
  mkTerrestrialTrajectoryPoint
    (mkTrajectoryPoint albuquerque "N12345" 0%Z
       (<["altitude" := RealProperty (Double.of_Z 10000)]>
          (<["callsign" := StringProperty "TT1"]> ∅))).

Definition bare_point : TerrestrialTrajectoryPoint :=
  mkTerrestrialTrajectoryPoint (mkTrajectoryPoint albuquerque "N12345" 0%Z ∅).

(** The great-circle angle, in radians, between two points of one
    meridian is the difference of their latitudes.  It stands in for
    [boost::geometry::distance] on concrete inputs. *)
Definition meridian_angle (p q : PointLonLat) : double :=
  Double.abs (radians_by_factor (Double.sub (get1 q) (get1 p))).

(** Two fixes of one flight on the meridian 106.5 W, one hour and one
    degree of latitude apart, a third fix sharing the timestamp of the
    second, and a fourth half a second after it. *)
Definition fix_at (latitude : Z) (ticks : Timestamp)
  : TerrestrialTrajectoryPoint :=
  mkTerrestrialTrajectoryPoint
    (mkTrajectoryPoint
       (mkTerrestrialPoint
          (mkPointLonLat (Double.opp (Double.literal 1065 1))
             (Double.of_Z latitude)))
       "N12345" ticks ∅).

Definition fix_0h : TerrestrialTrajectoryPoint := fix_at 35 0%Z.
Definition fix_1h : TerrestrialTrajectoryPoint := fix_at 36 3600000000%Z.
Definition fix_1h_far : TerrestrialTrajectoryPoint := fix_at 40 3600000000%Z.
Definition fix_half_second : TerrestrialTrajectoryPoint :=
  fix_at 36 3600500000%Z.

(** ** Terrestrial.h: the length of a trajectory *)

Module algorithms.

Section Length.

(** From outside this repository: [boost::geometry::length], which for a
    sequence of longitude/latitude points returns the sum of the
    great-circle angles of its segments, in radians. *)
Variable boost_geometry_length : list PointLonLat -> double.
Variable EARTH_RADIUS_IN_KM : double.

(** Modelled from the spec: [trajectory_type], that is
    [Trajectory<TerrestrialTrajectoryPoint>] (declared in
    [tracktable/Core/Trajectory.h]), an ordered sequence of trajectory
    points. *)
Definition trajectory_type : Type := list TerrestrialTrajectoryPoint.

(** [algorithms::length<terrestrial::trajectory_type>::apply]. *)
Definition length (trajectory : trajectory_type) : double :=
  radians_to_km EARTH_RADIUS_IN_KM
    (boost_geometry_length (map as_PointLonLat trajectory)).

End Length.

End algorithms.

(** A number that is zero, negative or NaN, and a positive finite
    number. *)
Definition nonpositive (y : double) : bool :=
  Double.is_zero y || Double.signbit y || Double.is_nan y.

Definition positive_finite (y : double) : bool :=
  match y with S754_finite false _ _ => true | _ => false end.

(** The sum of the meridian angles of the segments of a sequence of
    points; it stands in for [boost::geometry::length] on concrete
    inputs. *)
Fixpoint meridian_length (points : list PointLonLat) : double :=
  match points with
  | p :: (q :: _) as rest =>
      Double.add (meridian_angle p q) (meridian_length rest)
  | _ => Double.zero
  end.

(** The sample point seen later by another sensor: same coordinates and
    altitude, another object id, timestamp and callsign, and a heading
    besides. *)
Definition sample_point_later : TerrestrialTrajectoryPoint :=
  mkTerrestrialTrajectoryPoint
    (mkTrajectoryPoint albuquerque "N54321" 7200000000%Z
       (<["heading" := RealProperty (Double.of_Z 270)]>
          (<["altitude" := RealProperty (Double.of_Z 10000)]>
             (<["callsign" := StringProperty "TT2"]> ∅)))).

(** The sample point with a NaN stored as its altitude. *)
Definition nan_altitude_point : TerrestrialTrajectoryPoint :=
  mkTerrestrialTrajectoryPoint
    (mkTrajectoryPoint albuquerque "N12345" 0%Z
       (<["altitude" := RealProperty S754_nan]> ∅)).

(** The sampler of a program that specialises
    [point_at_time_fraction] alone: the first point of a terrestrial
    trajectory, or a default when there is none. *)
Definition first_point (path : list TerrestrialTrajectoryPoint)
    (fraction : double) : TerrestrialTrajectoryPoint :=
  match path with
  | p :: _ => p
  | [] => bare_point
  end.

Definition only_time_specialization (T : PointAtFraction.sample_type)
  : option (PointAtFraction.apply_t PointAtFraction.sample_type
              PointAtFraction.sample_value PointAtFraction.sample_point_type T) :=
  match T with
  | PointAtFraction.TerrestrialTrajectory => Some first_point
  | PointAtFraction.LineString => None
  end.

(** * Properties *)

(** ** Binary64 facts *)

Module DoubleFacts.
Import Double.

Lemma compare_refl (a : double) :
  is_nan a = false -> SFcompare a a = Some Eq.
Proof.
  destruct a as [s|s| |s m e]; simpl; try discriminate; intros _.
  - reflexivity.
  - destruct s; reflexivity.
  - rewrite Z.compare_refl, Pcompare_refl. destruct s; reflexivity.
Qed.

Lemma eqb_refl (a : double) : is_nan a = false -> eqb a a = true.
Proof.
  intros Ha. unfold eqb, SFeqb. rewrite (compare_refl a Ha). reflexivity.
Qed.

Lemma eqb_nan_l (b : double) : eqb S754_nan b = false.
Proof. reflexivity. Qed.

Lemma eqb_nan_r (a : double) : eqb a S754_nan = false.
Proof. destruct a; reflexivity. Qed.

Lemma ltb_nan_l (b : double) : ltb S754_nan b = false.
Proof. reflexivity. Qed.

Lemma ltb_nan_r (a : double) : ltb a S754_nan = false.
Proof. destruct a; reflexivity. Qed.

Lemma sub_nan_l (b : double) : sub S754_nan b = S754_nan.
Proof. reflexivity. Qed.

Lemma sub_nan_r (a : double) : sub a S754_nan = S754_nan.
Proof. destruct a; reflexivity. Qed.

Lemma div_nan_l (b : double) : div S754_nan b = S754_nan.
Proof. reflexivity. Qed.

(** *** Rounding keeps the sign *)

Lemma shr_1_nonneg mrs : shr_nonneg mrs -> shr_nonneg (shr_1 mrs).
Proof.
  destruct mrs as [m r s]. unfold shr_nonneg. simpl.
  destruct m as [|p|p]; [easy | | lia].
  destruct p; simpl; lia.
Qed.

Lemma iter_pos_shr_1_nonneg (p : positive) :
  forall mrs, shr_nonneg mrs -> shr_nonneg (SpecFloat.iter_pos shr_1 p mrs).
Proof.
  induction p as [p IH|p IH|]; intros mrs Hm; simpl.
  - apply IH, IH, shr_1_nonneg, Hm.
  - apply IH, IH, Hm.
  - apply shr_1_nonneg, Hm.
Qed.

Lemma shr_nonneg_preserved mrs e n :
  shr_nonneg mrs -> shr_nonneg (fst (shr mrs e n)).
Proof.
  intros Hm. destruct n; simpl; auto using iter_pos_shr_1_nonneg.
Qed.

Lemma shr_record_of_loc_nonneg m l :
  (0 <= m)%Z -> shr_nonneg (shr_record_of_loc m l).
Proof. destruct l as [|[]]; simpl; auto. Qed.

Lemma shr_fexp_nonneg m e l :
  (0 <= m)%Z -> shr_nonneg (fst (shr_fexp prec emax m e l)).
Proof.
  intros Hm. unfold shr_fexp.
  apply shr_nonneg_preserved, shr_record_of_loc_nonneg, Hm.
Qed.

Lemma round_nearest_even_nonneg m l :
  (0 <= m)%Z -> (0 <= round_nearest_even m l)%Z.
Proof.
  intros Hm. destruct l as [|[]]; simpl; try lia.
  destruct (Z.even m); lia.
Qed.

Lemma binary_round_aux_sign (s : bool) (m e : Z) (l : location) :
  (0 <= m)%Z ->
  is_nan (binary_round_aux prec emax s m e l) = false /\
  signbit (binary_round_aux prec emax s m e l) = s.
Proof.
  intros Hm. unfold binary_round_aux.
  pose proof (shr_fexp_nonneg m e l Hm) as H1.
  destruct (shr_fexp prec emax m e l) as [mrs' e']. simpl in H1.
  pose proof (shr_fexp_nonneg
                (round_nearest_even (shr_m mrs') (loc_of_shr_record mrs'))
                e' loc_Exact
                (round_nearest_even_nonneg _ _ H1)) as H2.
  destruct (shr_fexp prec emax _ e' loc_Exact) as [mrs'' e'']. simpl in H2.
  unfold shr_nonneg in H2.
  destruct (shr_m mrs'') as [|q|q]; [easy | | lia].
  destruct (e'' <=? emax - prec)%Z; easy.
Qed.

Lemma binary_round_sign (s : bool) (m : positive) (e : Z) :
  is_nan (binary_round prec emax s m e) = false /\
  signbit (binary_round prec emax s m e) = s.
Proof.
  unfold binary_round.
  destruct (shl_align m e _) as [mz ez].
  apply binary_round_aux_sign. lia.
Qed.

Lemma mul_finite_sign (sx : bool) (mx : positive) (ex : Z) (y : double) :
  is_nan y = false ->
  is_nan (mul (S754_finite sx mx ex) y) = false /\
  signbit (mul (S754_finite sx mx ex) y) = xorb sx (signbit y).
Proof.
  destruct y as [sy|sy| |sy my ey]; simpl; try discriminate; intros _; auto.
  apply binary_round_aux_sign. lia.
Qed.

Lemma div_core_nonneg (mx my : positive) (ex ey : Z) :
  (0 <= fst (fst (SFdiv_core_binary prec emax (Zpos mx) ex (Zpos my) ey)))%Z.
Proof.
  unfold SFdiv_core_binary.
  set (s := (ex - ey - _)%Z).
  set (m' := match s with Z0 => Zpos mx | Zpos _ => Z.shiftl (Zpos mx) s
                     | Zneg _ => 0%Z end).
  assert (Hm' : (0 <= m')%Z).
  { subst m'. destruct s; try lia. apply Z.shiftl_nonneg. lia. }
  pose proof (Z_div_mod m' (Zpos my) eq_refl) as Hdiv.
  destruct (Z.div_eucl m' (Zpos my)) as [q r]. simpl. nia.
Qed.

Lemma div_sign (x y : double) :
  is_nan x = false -> is_nan y = false -> is_zero y = false ->
  is_finite x || is_finite y = true ->
  is_nan (div x y) = false /\
  signbit (div x y) = xorb (signbit x) (signbit y).
Proof.
  destruct x as [sx|sx| |sx mx ex], y as [sy|sy| |sy my ey]; simpl;
    try discriminate; intros _ _ _ _; auto.
  pose proof (div_core_nonneg mx my ex ey) as Hq.
  destruct (SFdiv_core_binary prec emax (Zpos mx) ex (Zpos my) ey)
    as [[mz ez] lz].
  apply binary_round_aux_sign. exact Hq.
Qed.

Lemma of_Z_sign (n : Z) :
  is_nan (of_Z n) = false /\ signbit (of_Z n) = (n <? 0)%Z.
Proof.
  destruct n as [|p|p]; unfold of_Z; simpl; auto;
    apply binary_round_sign.
Qed.

(** *** Integers below [2^53] convert exactly *)

Lemma digits2_pos_bounds (m : positive) :
  (2 ^ (Zpos (digits2_pos m) - 1) <= Zpos m < 2 ^ Zpos (digits2_pos m))%Z.
Proof.
  induction m as [p IH|p IH|]; simpl digits2_pos.
  - rewrite Pos2Z.inj_succ, Z.pow_succ_r by lia.
    replace (Z.succ (Zpos (digits2_pos p)) - 1)%Z
      with (Z.succ (Zpos (digits2_pos p) - 1))%Z by lia.
    rewrite Z.pow_succ_r by lia. lia.
  - rewrite Pos2Z.inj_succ, Z.pow_succ_r by lia.
    replace (Z.succ (Zpos (digits2_pos p)) - 1)%Z
      with (Z.succ (Zpos (digits2_pos p) - 1))%Z by lia.
    rewrite Z.pow_succ_r by lia. lia.
  - simpl. lia.
Qed.

Lemma digits2_pos_le_prec (m : positive) :
  (Zpos m < 2 ^ 53)%Z -> (Zpos (digits2_pos m) <= 53)%Z.
Proof.
  intros Hm. pose proof (digits2_pos_bounds m) as [Hlo _].
  destruct (Z_le_gt_dec (Zpos (digits2_pos m)) 53) as [|Hgt]; [assumption|].
  exfalso.
  assert (2 ^ 53 <= 2 ^ (Zpos (digits2_pos m) - 1))%Z
    by (apply Z.pow_le_mono_r; lia).
  lia.
Qed.

Lemma digits2_pos_iter_xO (k m : positive) :
  digits2_pos (Pos.iter xO m k) = (digits2_pos m + k)%positive.
Proof.
  induction k as [|k IH] using Pos.peano_ind.
  - simpl. lia.
  - rewrite Pos.iter_succ. simpl. rewrite IH. lia.
Qed.

Lemma binary_round_aux_exact (s : bool) (mz : positive) (ez : Z) :
  Zpos (digits2_pos mz) = 53%Z -> (-1074 <= ez <= 971)%Z ->
  binary_round_aux prec emax s (Zpos mz) ez loc_Exact = S754_finite s mz ez.
Proof.
  intros Hd He.
  assert (Hshift : forall d, d = 53%Z ->
            (fexp prec emax (d + ez) - ez = 0)%Z).
  { intros d ->. unfold fexp, emin, prec, emax. lia. }
  unfold binary_round_aux, shr_fexp.
  change (Zdigits2 (Zpos mz)) with (Zpos (digits2_pos mz)).
  rewrite (Hshift _ Hd). simpl.
  rewrite (Hshift _ Hd). simpl.
  replace (ez <=? emax - prec)%Z with true; [reflexivity|].
  symmetry. apply Z.leb_le. unfold emax, prec. lia.
Qed.

Lemma binary_round_exact (s : bool) (m : positive) :
  (Zpos m < 2 ^ 53)%Z ->
  exists mz ez,
    binary_round prec emax s m 0 = S754_finite s mz ez /\ (-52 <= ez <= 0)%Z.
Proof.
  intros Hm. pose proof (digits2_pos_le_prec m Hm) as Hd.
  unfold binary_round.
  assert (Hf : fexp prec emax (Zpos (digits2_pos m) + 0)
               = (Zpos (digits2_pos m) - 53)%Z).
  { unfold fexp, emin, prec, emax. lia. }
  rewrite Hf. unfold shl_align.
  destruct (Zpos (digits2_pos m) - 53 - 0)%Z as [|k|k] eqn:Hk.
  - exists m, 0%Z. split; [|lia]. apply binary_round_aux_exact; lia.
  - lia.
  - exists (Pos.iter xO m k), (Zpos (digits2_pos m) - 53)%Z. split; [|lia].
    apply binary_round_aux_exact; [|lia].
    rewrite digits2_pos_iter_xO. lia.
Qed.

(** A non-zero integer below [2^53] converts to a finite number of
    magnitude at least one: its exponent is at least [-52] and its
    mantissa has 53 bits. *)
Lemma of_Z_exact (n : Z) :
  n <> 0%Z -> (Z.abs n < 2 ^ 53)%Z ->
  exists mz ez,
    of_Z n = S754_finite (n <? 0)%Z mz ez /\ (-52 <= ez <= 0)%Z.
Proof.
  intros Hn0 Hn. destruct n as [|p|p]; unfold of_Z; simpl binary_normalize.
  - congruence.
  - apply binary_round_exact. lia.
  - apply binary_round_exact. lia.
Qed.

Lemma of_Z_finite (n : Z) :
  (Z.abs n < 2 ^ 53)%Z -> is_finite (of_Z n) = true.
Proof.
  intros Hn. destruct (Z.eq_dec n 0%Z) as [->|Hn0]; [reflexivity|].
  destruct (of_Z_exact n Hn0 Hn) as (mz & ez & -> & _). reflexivity.
Qed.

End DoubleFacts.

(** ** The float comparator *)

(** The relative error of [1e-10] against [-1e-10] is exactly one:
    the difference and the sum of the magnitudes are the same number. *)
Lemma relative_error_opposite_1e_10 :
  Double.div (Double.abs (Double.sub lit_1e_10 (Double.opp lit_1e_10)))
             (Double.add (Double.abs lit_1e_10)
                         (Double.abs (Double.opp lit_1e_10)))
  = Double.one.
Proof. vm_compute. reflexivity. Qed.

(** C2, as stated, fails: [almost_equal(1e-10, -1e-10)] is [false] under
    the default tolerance [1e-5]. *)
Lemma almost_equal_opposite_1e_10_default :
  almost_equal lit_1e_10 (Double.opp lit_1e_10)
    settings.EQUALITY_RELATIVE_TOLERANCE = false.
Proof. vm_compute. reflexivity. Qed.

(** C2, amended: [almost_equal(1e-10, -1e-10)] returns false under the
    default tolerance [1e-5].  For every tolerance the call takes the
    relative-error branch, the relative error is one, and the result is
    whether [1 < tolerance]. *)
Theorem almost_equal_opposite_1e_10 :
  almost_equal lit_1e_10 (Double.opp lit_1e_10)
    settings.EQUALITY_RELATIVE_TOLERANCE = false /\
  forall tolerance : double,
    almost_equal lit_1e_10 (Double.opp lit_1e_10) tolerance
    = Double.ltb Double.one tolerance.
Proof.
  split; [vm_compute; reflexivity|].
  intros tolerance. unfold almost_equal.
  replace (Double.eqb lit_1e_10 (Double.opp lit_1e_10)) with false
    by (vm_compute; reflexivity).
  replace (Double.eqb lit_1e_10 (Double.of_Z 0)
           || Double.eqb (Double.opp lit_1e_10) (Double.of_Z 0)
           || Double.ltb
                (Double.abs (Double.sub lit_1e_10 (Double.opp lit_1e_10)))
                Double.numeric_limits_epsilon)
    with false by (vm_compute; reflexivity).
  rewrite relative_error_opposite_1e_10. reflexivity.
Qed.

(** The shortcut of [almost_equal] is the comparison [a == b]: a NaN,
    which compares unequal to itself, is not almost equal to itself. *)
Lemma almost_equal_nan_nan_default :
  @eq double S754_nan S754_nan /\
  almost_equal S754_nan S754_nan settings.EQUALITY_RELATIVE_TOLERANCE = false.
Proof. split; reflexivity. Qed.

(** C3: [almost_equal(a, b, tol)] returns true at once when [a] and [b]
    are identical under the comparison [a == b], as every finite [a] and
    both infinities are to themselves; otherwise, when an operand
    is zero or [|a - b|] is below machine epsilon, it returns whether
    [|a - b| < tol * min], [min] the smallest normal value; otherwise it
    returns whether [|a - b| / (|a| + |b|) < tol].  At the default
    tolerance [almost_equal(1.0, 1.00002)] is true and
    [almost_equal(1.0, 1.1)] is false. *)
Theorem almost_equal_cases (a b tol : double) :
  let diff := Double.abs (Double.sub a b) in
  let near_zero :=
    Double.eqb a Double.zero || Double.eqb b Double.zero
    || Double.ltb diff Double.numeric_limits_epsilon in
  (Double.eqb a b = true -> almost_equal a b tol = true) /\
  (Double.is_nan a = false -> almost_equal a a tol = true) /\
  (Double.eqb a b = false -> near_zero = true ->
   almost_equal a b tol
   = Double.ltb diff (Double.mul tol Double.numeric_limits_min)) /\
  (Double.eqb a b = false -> near_zero = false ->
   almost_equal a b tol
   = Double.ltb (Double.div diff (Double.add (Double.abs a) (Double.abs b)))
                tol) /\
  almost_equal Double.one lit_1_00002 settings.EQUALITY_RELATIVE_TOLERANCE
  = true /\
  almost_equal Double.one lit_1_1 settings.EQUALITY_RELATIVE_TOLERANCE
  = false.
Proof.
  cbv zeta. unfold almost_equal.
  change (Double.of_Z 0) with Double.zero.
  split_conj.
  - intros ->. reflexivity.
  - intros Ha. rewrite (DoubleFacts.eqb_refl a Ha). reflexivity.
  - intros -> ->. reflexivity.
  - intros -> ->. reflexivity.
  - vm_compute. reflexivity.
  - vm_compute. reflexivity.
Qed.

Lemma almost_equal_cases_witness :
  almost_equal (S754_infinity true) (S754_infinity true)
    settings.EQUALITY_RELATIVE_TOLERANCE = true /\
  almost_equal lit_1_1 lit_1_1 settings.EQUALITY_RELATIVE_TOLERANCE = true /\
  almost_equal Double.zero lit_1e_10 settings.EQUALITY_RELATIVE_TOLERANCE
  = Double.ltb (Double.abs (Double.sub Double.zero lit_1e_10))
      (Double.mul settings.EQUALITY_RELATIVE_TOLERANCE
         Double.numeric_limits_min) /\
  almost_equal Double.one lit_1_1 settings.EQUALITY_RELATIVE_TOLERANCE
  = Double.ltb
      (Double.div (Double.abs (Double.sub Double.one lit_1_1))
         (Double.add (Double.abs Double.one) (Double.abs lit_1_1)))
      settings.EQUALITY_RELATIVE_TOLERANCE.
Proof.
  split; [|split; [|split]].
  - apply (proj1 (almost_equal_cases (S754_infinity true) (S754_infinity true)
                    settings.EQUALITY_RELATIVE_TOLERANCE)).
    vm_compute. reflexivity.
  - apply (proj1 (proj2 (almost_equal_cases lit_1_1 lit_1_1
                           settings.EQUALITY_RELATIVE_TOLERANCE))).
    vm_compute. reflexivity.
  - apply (proj1 (proj2 (proj2 (almost_equal_cases Double.zero lit_1e_10
                                  settings.EQUALITY_RELATIVE_TOLERANCE)))).
    + vm_compute. reflexivity.
    + vm_compute. reflexivity.
  - apply (proj1 (proj2 (proj2 (proj2 (almost_equal_cases Double.one lit_1_1
                                  settings.EQUALITY_RELATIVE_TOLERANCE))))).
    + vm_compute. reflexivity.
    + vm_compute. reflexivity.
Defined.

(** C10: a NaN operand makes [almost_equal] false, [almost_equal(NaN,
    NaN)] included, and [almost_zero(NaN)] is false, whatever the
    tolerance. *)
Theorem almost_equal_nan (x tol : double) :
  almost_equal S754_nan x tol = false /\
  almost_equal x S754_nan tol = false /\
  almost_equal S754_nan S754_nan tol = false /\
  almost_zero S754_nan tol = false.
Proof.
  split_conj.
  - unfold almost_equal. rewrite DoubleFacts.eqb_nan_l.
    rewrite DoubleFacts.sub_nan_l.
    destruct (_ || _ || _); reflexivity.
  - unfold almost_equal. rewrite DoubleFacts.eqb_nan_r.
    rewrite DoubleFacts.sub_nan_r.
    destruct (_ || _ || _); reflexivity.
  - reflexivity.
  - reflexivity.
Qed.

(** ** The ECEF transform *)

Section ECEF_facts.

Variable libm_sin libm_cos : double -> double.

Let binary64 : Arith double := Arith_double libm_sin libm_cos.

(** C5: [ECEF_from_km(lon, lat, alt)] is the WGS84 point
    [x = (N + alt) cos lat cos lon], [y = (N + alt) cos lat sin lon],
    [z = (N (1 - e2) + alt) sin lat] with [N = a / sqrt (1 - e2 sin^2 lat)],
    [a = 6378.137] and [e2] the square of [8.1819190842622e-2]: in
    binary64 with the operations in the order the program applies them,
    and in exact real arithmetic, where the order is immaterial.
    [ECEF_from_km(0, 0, 0)] is [(6378.137, 0, 0)]: in binary64 the first
    coordinate is the [double] nearest to [6378.137] and the others are
    [+0], as soon as [sin 0 = 0] and [cos 0 = 1]. *)
Theorem ECEF_from_km_WGS84 :
  (forall lon lat alt : double,
     let a := Double.literal 6378137 3 in
     let e2 := Double.mul (Double.literal 81819190842622 15)
                          (Double.literal 81819190842622 15) in
     let N := Double.div a
                (Double.sqrt
                   (Double.sub Double.one
                      (Double.mul (Double.mul e2 (libm_sin lat)) (libm_sin lat)))) in
     ECEF_from_km (H := binary64) lon lat alt
     = mkPointCartesian3
         (Double.mul (Double.mul (Double.add N alt) (libm_cos lat)) (libm_cos lon))
         (Double.mul (Double.mul (Double.add N alt) (libm_cos lat)) (libm_sin lon))
         (Double.mul (Double.add (Double.mul N (Double.sub Double.one e2)) alt)
                     (libm_sin lat))) /\
  (forall lon lat alt : R,
     let a := 6378.137%R in
     let e2 := (8.1819190842622e-2 * 8.1819190842622e-2)%R in
     let N := (a / R_sqrt.sqrt (1 - e2 * (Rtrigo_def.sin lat)²))%R in
     ECEF_from_km (H := Arith_R) lon lat alt
     = mkPointCartesian3
         ((N + alt) * Rtrigo_def.cos lat * Rtrigo_def.cos lon)%R
         ((N + alt) * Rtrigo_def.cos lat * Rtrigo_def.sin lon)%R
         ((N * (1 - e2) + alt) * Rtrigo_def.sin lat)%R) /\
  (libm_sin Double.zero = Double.zero ->
   libm_cos Double.zero = Double.one ->
   ECEF_from_km (H := binary64) Double.zero Double.zero Double.zero
   = mkPointCartesian3 (Double.literal 6378137 3) Double.zero Double.zero) /\
  ECEF_from_km (H := Arith_R) 0%R 0%R 0%R
  = mkPointCartesian3 6378.137%R 0%R 0%R.
Proof.
  assert (Hone : (IZR 1 / IZR (10 ^ 0) = 1)%R) by (simpl; lra).
  assert (Ha : (IZR 6378137 / IZR (10 ^ 3) = 6378.137)%R) by (simpl; lra).
  assert (He : (IZR 81819190842622 / IZR (10 ^ 15) = 8.1819190842622e-2)%R)
    by (simpl; lra).
  split_conj.
  - intros lon lat alt. reflexivity.
  - intros lon lat alt. cbv zeta.
    unfold ECEF_from_km, Arith_R; cbn [literal add sub mul div sqrt sin cos].
    rewrite Hone, Ha, He.
    replace (8.1819190842622e-2 * 8.1819190842622e-2 * Rtrigo_def.sin lat
             * Rtrigo_def.sin lat)%R
      with (8.1819190842622e-2 * 8.1819190842622e-2 * (Rtrigo_def.sin lat)²)%R
      by (unfold Rsqr; ring).
    reflexivity.
  - intros Hsin Hcos.
    unfold ECEF_from_km, binary64, Arith_double;
      cbn [literal add sub mul div sqrt sin cos].
    rewrite Hsin, Hcos. vm_compute. reflexivity.
  - unfold ECEF_from_km, Arith_R; cbn [literal add sub mul div sqrt sin cos].
    rewrite Hone, Ha, He, sin_0, cos_0.
    replace (1 - 8.1819190842622e-2 * 8.1819190842622e-2 * 0 * 0)%R
      with 1%R by ring.
    rewrite sqrt_1. f_equal; field.
Qed.

End ECEF_facts.

Lemma ECEF_from_km_WGS84_witness :
  ECEF_from_km (H := Arith_double taylor_sin taylor_cos)
    Double.zero Double.zero Double.zero
  = mkPointCartesian3 (Double.literal 6378137 3) Double.zero Double.zero.
Proof.
  apply (proj1 (proj2 (proj2 (ECEF_from_km_WGS84 taylor_sin taylor_cos)))).
  - vm_compute. reflexivity.
  - vm_compute. reflexivity.
Defined.

(** ** The ECEF wrappers *)

Section Wrapper_facts.

Variable libm_sin libm_cos : double -> double.
Variable conversions_radians : double -> double.
Variable unspecified_placeholder : double.

Let binary64 : Arith double := Arith_double libm_sin libm_cos.

#[local] Abbreviation ECEF' :=
  (ECEF libm_sin libm_cos conversions_radians unspecified_placeholder).
#[local] Abbreviation ECEF_from_feet' :=
  (ECEF_from_feet libm_sin libm_cos conversions_radians unspecified_placeholder).
#[local] Abbreviation ECEF_from_meters' :=
  (ECEF_from_meters libm_sin libm_cos conversions_radians
     unspecified_placeholder).

Lemma real_property_ok (p : TerrestrialTrajectoryPoint) (name : string) :
  snd (real_property unspecified_placeholder
         (TerrestrialTrajectoryPoint_Superclass p) name) = true
  <-> has_real_property p name.
Proof.
  unfold real_property, has_real_property, property_store.
  destruct (Properties (TerrestrialTrajectoryPoint_Superclass p) !! name)
    as [[v|t|t]|]; simpl; split;
    try discriminate; try (intros [v' Hv']; discriminate); eauto.
Qed.

Lemma ECEF_present (ratio : double) (s : string)
    (p : TerrestrialTrajectoryPoint) (v : double) :
  property_store p !! s = Some (RealProperty v) ->
  ECEF' ratio s p
  = (Returns
       (ECEF_from_km (H := binary64)
          (conversions_radians (get0 (as_PointLonLat p)))
          (conversions_radians (get1 (as_PointLonLat p)))
          (Double.mul ratio v)),
     p).
Proof.
  unfold property_store, ECEF, real_property. intros ->. reflexivity.
Qed.

Lemma ECEF_absent (ratio : double) (s : string)
    (p : TerrestrialTrajectoryPoint) :
  ~ has_real_property p s ->
  ECEF' ratio s p = (Throws (PropertyDoesNotExist s), p).
Proof.
  unfold has_real_property, property_store, ECEF, real_property. intros Hno.
  destruct (Properties (TerrestrialTrajectoryPoint_Superclass p) !! s)
    as [[v|t|t]|]; try reflexivity.
  exfalso. apply Hno. eauto.
Qed.

(** C6: [ECEF(ratio, s)] on [p] throws [PropertyDoesNotExist] exactly
    when the property store of [p] holds no real property named [s];
    when it holds one the call returns normally; in both cases [p] is
    left as it was. *)
Theorem ECEF_throws_iff_property_missing
    (ratio : double) (s : string) (p : TerrestrialTrajectoryPoint) :
  (fst (ECEF' ratio s p) = Throws (PropertyDoesNotExist s)
   <-> ~ has_real_property p s) /\
  (throws (fst (ECEF' ratio s p)) = true <-> ~ has_real_property p s) /\
  (has_real_property p s ->
   exists q, ECEF' ratio s p = (Returns q, p)) /\
  snd (ECEF' ratio s p) = p.
Proof.
  assert (Hcases : has_real_property p s \/ ~ has_real_property p s).
  { unfold has_real_property.
    destruct (property_store p !! s) as [[v|t|t]|] eqn:E; eauto;
      right; intros [v' Hv']; discriminate. }
  split_conj.
  - split.
    + intros Hthrow [v Hv]. rewrite (ECEF_present _ _ _ _ Hv) in Hthrow.
      discriminate.
    + intros Hno. rewrite (ECEF_absent _ _ _ Hno). reflexivity.
  - split.
    + intros Hthrow [v Hv]. rewrite (ECEF_present _ _ _ _ Hv) in Hthrow.
      discriminate.
    + intros Hno. rewrite (ECEF_absent _ _ _ Hno). reflexivity.
  - intros [v Hv]. rewrite (ECEF_present _ _ _ _ Hv). eauto.
  - destruct Hcases as [[v Hv]|Hno].
    + rewrite (ECEF_present _ _ _ _ Hv). reflexivity.
    + rewrite (ECEF_absent _ _ _ Hno). reflexivity.
Qed.

(** C7: when the named altitude is stored, [ECEF_from_feet(s)] is
    [ECEF(1/3280.839895013123, s)] and [ECEF_from_meters(s)] is
    [ECEF(1/1000, s)]; each multiplies the stored altitude by its ratio,
    converts the stored longitude and latitude from degrees to radians,
    and applies [ECEF_from_km]. *)
Theorem ECEF_from_feet_meters
    (s : string) (p : TerrestrialTrajectoryPoint) (v : double) :
  property_store p !! s = Some (RealProperty v) ->
  let feet := Double.div Double.one (Double.literal 3280839895013123 12) in
  let meters := Double.div Double.one (Double.of_Z 1000) in
  let km ratio :=
    ECEF_from_km (H := binary64)
      (conversions_radians (get0 (as_PointLonLat p)))
      (conversions_radians (get1 (as_PointLonLat p)))
      (Double.mul ratio v) in
  ECEF_from_feet' s p = ECEF' feet s p /\
  ECEF_from_meters' s p = ECEF' meters s p /\
  ECEF_from_feet' s p = (Returns (km feet), p) /\
  ECEF_from_meters' s p = (Returns (km meters), p).
Proof.
  intros Hv feet meters km.
  assert (Hfeet : ECEF_from_feet' s p = ECEF' feet s p).
  { unfold ECEF_from_feet, feet.
    replace (Double.literal 1 0) with Double.one by (vm_compute; reflexivity).
    reflexivity. }
  assert (Hmeters : ECEF_from_meters' s p = ECEF' meters s p).
  { unfold ECEF_from_meters, meters.
    replace (Double.literal 1 0) with Double.one by (vm_compute; reflexivity).
    replace (Double.literal 1000 0) with (Double.of_Z 1000)
      by (vm_compute; reflexivity).
    reflexivity. }
  split_conj; try assumption.
  - rewrite Hfeet. apply ECEF_present, Hv.
  - rewrite Hmeters. apply ECEF_present, Hv.
Qed.

End Wrapper_facts.

Lemma ECEF_throws_iff_property_missing_witness :
  (exists q,
     ECEF taylor_sin taylor_cos radians_by_factor S754_nan
       (Double.literal 1 3) "altitude" sample_point
     = (Returns q, sample_point)) /\
  fst (ECEF taylor_sin taylor_cos radians_by_factor S754_nan
         (Double.literal 1 3) "callsign" sample_point)
  = Throws (PropertyDoesNotExist "callsign") /\
  fst (ECEF taylor_sin taylor_cos radians_by_factor S754_nan
         (Double.literal 1 3) "altitude" bare_point)
  = Throws (PropertyDoesNotExist "altitude").
Proof.
  split_conj.
  - apply (proj1 (proj2 (proj2
             (ECEF_throws_iff_property_missing taylor_sin taylor_cos
                radians_by_factor S754_nan (Double.literal 1 3) "altitude"
                sample_point)))).
    exists (Double.of_Z 10000). reflexivity.
  - apply (proj1 (ECEF_throws_iff_property_missing taylor_sin taylor_cos
                    radians_by_factor S754_nan (Double.literal 1 3) "callsign"
                    sample_point)).
    intros [v Hv]. vm_compute in Hv. discriminate.
  - apply (proj1 (ECEF_throws_iff_property_missing taylor_sin taylor_cos
                    radians_by_factor S754_nan (Double.literal 1 3) "altitude"
                    bare_point)).
    intros [v Hv]. vm_compute in Hv. discriminate.
Defined.

Lemma ECEF_from_feet_meters_witness :
  ECEF_from_feet taylor_sin taylor_cos radians_by_factor S754_nan
    "altitude" sample_point
  = ECEF taylor_sin taylor_cos radians_by_factor S754_nan
      (Double.div Double.one (Double.literal 3280839895013123 12))
      "altitude" sample_point.
Proof.
  apply (ECEF_from_feet_meters taylor_sin taylor_cos radians_by_factor
           S754_nan "altitude" sample_point (Double.of_Z 10000)).
  reflexivity.
Defined.

(** ** Terrestrial distance and speed *)

Section Distance_facts.

Variable boost_geometry_distance : PointLonLat -> PointLonLat -> double.
Variable EARTH_RADIUS_IN_KM : double.

#[local] Abbreviation distance' :=
  (distance boost_geometry_distance EARTH_RADIUS_IN_KM).
#[local] Abbreviation speed_between' :=
  (speed_between boost_geometry_distance EARTH_RADIUS_IN_KM).

(** C4: the terrestrial [distance(from, to)] is the angle in radians
    that the generic great-circle primitive returns, multiplied by the
    radians-to-kilometers factor, Earth's mean radius; hence
    [distance(p, p)] is zero wherever the primitive's angle from [p] to
    itself is zero, the radius being a finite number. *)
Theorem terrestrial_distance_km
    {Geom1 Geom2 : Type} `{Geometry Geom1} `{Geometry Geom2}
    (from : Geom1) (to : Geom2) :
  distance' from to
  = Double.mul
      (boost_geometry_distance (as_PointLonLat from) (as_PointLonLat to))
      EARTH_RADIUS_IN_KM /\
  (Double.is_finite EARTH_RADIUS_IN_KM = true ->
   Double.is_zero
     (boost_geometry_distance (as_PointLonLat from) (as_PointLonLat from))
   = true ->
   Double.is_zero (distance' from from) = true /\
   Double.eqb (distance' from from) Double.zero = true).
Proof.
  split; [reflexivity|].
  unfold distance, radians_to_km.
  destruct (boost_geometry_distance _ _) as [s0|s0| |s0 m0 e0];
    destruct EARTH_RADIUS_IN_KM as [sr|sr| |sr mr er];
    simpl; try discriminate; intros _ _; split; reflexivity.
Qed.

Lemma not_almost_zero_not_zero (x : double) :
  almost_zero x settings.EQUALITY_RELATIVE_TOLERANCE = false ->
  Double.is_zero x = false.
Proof.
  destruct x; try reflexivity. vm_compute. discriminate.
Qed.

(** Whole seconds, converted to [double], are almost zero at the default
    tolerance only when they are zero. *)
Lemma almost_zero_of_Z (n : Z) :
  (Z.abs n < 2 ^ 53)%Z ->
  almost_zero (Double.of_Z n) settings.EQUALITY_RELATIVE_TOLERANCE
  = (n =? 0)%Z.
Proof.
  intros Hn. destruct (Z.eq_dec n 0%Z) as [->|Hn0].
  - vm_compute. reflexivity.
  - destruct (DoubleFacts.of_Z_exact n Hn0 Hn) as (mz & ez & -> & Hez).
    replace (n =? 0)%Z with false by (symmetry; apply Z.eqb_neq, Hn0).
    replace settings.EQUALITY_RELATIVE_TOLERANCE
      with (S754_finite false 5902958103587057 (-69))
      by (vm_compute; reflexivity).
    unfold almost_zero, Double.ltb, SFltb, Double.abs, SFabs, SFcompare.
    destruct (Z.compare_spec ez (-69)); try lia; reflexivity.
Qed.

(** C1: [speed_between(from, to)] is [0] when the elapsed seconds are
    almost zero at the default tolerance, as they are whenever the two
    timestamps are identical, whatever the distance; otherwise it is
    [3600 * distance(from, to) / elapsed_seconds], a number whose sign
    is the sign of the elapsed time (the distance being a non-negative
    number, and the elapsed seconds below [2^53]).  The elapsed seconds
    are whole seconds: they are almost zero exactly when they are
    zero. *)
Theorem speed_between_terrestrial (from to : TerrestrialTrajectoryPoint) :
  let distance_traveled := distance' from to in
  let seconds_elapsed := Double.of_Z (elapsed_seconds from to) in
  (almost_zero seconds_elapsed settings.EQUALITY_RELATIVE_TOLERANCE = true ->
   speed_between' from to = Double.zero) /\
  (timestamp to = timestamp from -> speed_between' from to = Double.zero) /\
  ((Z.abs (elapsed_seconds from to) < 2 ^ 53)%Z ->
   almost_zero seconds_elapsed settings.EQUALITY_RELATIVE_TOLERANCE
   = (elapsed_seconds from to =? 0)%Z) /\
  (almost_zero seconds_elapsed settings.EQUALITY_RELATIVE_TOLERANCE = false ->
   speed_between' from to
   = Double.div (Double.mul (Double.of_Z 3600) distance_traveled)
                seconds_elapsed) /\
  (almost_zero seconds_elapsed settings.EQUALITY_RELATIVE_TOLERANCE = false ->
   Double.is_nan distance_traveled = false ->
   Double.signbit distance_traveled = false ->
   (Z.abs (elapsed_seconds from to) < 2 ^ 53)%Z ->
   Double.is_nan (speed_between' from to) = false /\
   Double.signbit (speed_between' from to) = (elapsed_seconds from to <? 0)%Z).
Proof.
  intros d s.
  assert (H3600 : Double.literal 3600 0
                  = S754_finite false 7916483719987200 (-41))
    by (vm_compute; reflexivity).
  assert (Hof : Double.of_Z 3600 = Double.literal 3600 0)
    by (vm_compute; reflexivity).
  assert (Hnz : almost_zero s settings.EQUALITY_RELATIVE_TOLERANCE = false ->
                speed_between' from to
                = Double.div (Double.mul (Double.of_Z 3600) d) s).
  { intros Hz. unfold speed_between. fold (elapsed_seconds from to). fold s.
    rewrite Hz, Hof. reflexivity. }
  split_conj.
  - intros Hz. unfold speed_between. fold (elapsed_seconds from to). fold s.
    rewrite Hz. reflexivity.
  - intros Ht. unfold speed_between, timestamp_minus. rewrite Ht, Z.sub_diag.
    reflexivity.
  - apply almost_zero_of_Z.
  - exact Hnz.
  - intros Hz Hnan Hsign Hbound. rewrite (Hnz Hz), Hof, H3600.
    destruct (DoubleFacts.mul_finite_sign false 7916483719987200 (-41) d Hnan)
      as [Hxnan Hxsign].
    rewrite Hsign in Hxsign. change (xorb false false) with false in Hxsign.
    destruct (DoubleFacts.of_Z_sign (elapsed_seconds from to))
      as [Hsnan Hssign]. fold s in Hsnan, Hssign.
    pose proof (DoubleFacts.of_Z_finite _ Hbound) as Hsfin. fold s in Hsfin.
    destruct (DoubleFacts.div_sign _ s Hxnan Hsnan
                (not_almost_zero_not_zero s Hz)) as [Hrnan Hrsign].
    { rewrite Hsfin. apply orb_true_r. }
    split; [exact Hrnan|].
    rewrite Hrsign, Hxsign, Hssign. reflexivity.
Qed.

End Distance_facts.

Lemma terrestrial_distance_km_witness :
  Double.is_zero
    (distance meridian_angle (Double.of_Z 6371) albuquerque albuquerque) = true /\
  Double.eqb
    (distance meridian_angle (Double.of_Z 6371) albuquerque albuquerque)
    Double.zero = true.
Proof.
  apply (proj2 (terrestrial_distance_km meridian_angle (Double.of_Z 6371)
                  albuquerque albuquerque)).
  - vm_compute. reflexivity.
  - vm_compute. reflexivity.
Defined.

Lemma speed_between_terrestrial_witness :
  (Double.is_nan (speed_between meridian_angle (Double.of_Z 6371) fix_0h fix_1h)
   = false /\
   Double.signbit (speed_between meridian_angle (Double.of_Z 6371) fix_0h fix_1h)
   = false) /\
  (Double.is_nan (speed_between meridian_angle (Double.of_Z 6371) fix_1h fix_0h)
   = false /\
   Double.signbit (speed_between meridian_angle (Double.of_Z 6371) fix_1h fix_0h)
   = true) /\
  speed_between meridian_angle (Double.of_Z 6371) fix_1h fix_1h_far
  = Double.zero /\
  speed_between meridian_angle (Double.of_Z 6371) fix_half_second fix_1h_far
  = Double.zero /\
  almost_zero (Double.of_Z (elapsed_seconds fix_0h fix_1h))
    settings.EQUALITY_RELATIVE_TOLERANCE = false /\
  speed_between meridian_angle (Double.of_Z 6371) fix_0h fix_1h
  = Double.div
      (Double.mul (Double.of_Z 3600)
         (distance meridian_angle (Double.of_Z 6371) fix_0h fix_1h))
      (Double.of_Z 3600).
Proof.
  pose (at_points := speed_between_terrestrial meridian_angle (Double.of_Z 6371)).
  split; [|split; [|split; [|split; [|split]]]].
  - apply (proj2 (proj2 (proj2 (proj2 (at_points fix_0h fix_1h))))).
    + vm_compute. reflexivity.
    + vm_compute. reflexivity.
    + vm_compute. reflexivity.
    + vm_compute. reflexivity.
  - apply (proj2 (proj2 (proj2 (proj2 (at_points fix_1h fix_0h))))).
    + vm_compute. reflexivity.
    + vm_compute. reflexivity.
    + vm_compute. reflexivity.
    + vm_compute. reflexivity.
  - apply (proj1 (proj2 (at_points fix_1h fix_1h_far))).
    reflexivity.
  - apply (proj1 (at_points fix_half_second fix_1h_far)).
    vm_compute. reflexivity.
  - apply (proj1 (proj2 (proj2 (at_points fix_0h fix_1h)))).
    vm_compute. reflexivity.
  - apply (proj1 (proj2 (proj2 (proj2 (at_points fix_0h fix_1h))))).
    vm_compute. reflexivity.
Defined.

(** ** The delegated point algorithms *)

Section Delegation_facts.

Variable generic_PointLonLat : forall A, apply_type A PointLonLat.
Variable generic_TrajectoryPoint :
  forall A, apply_type A (TrajectoryPoint TerrestrialPoint).

#[local] Abbreviation on_point :=
  (terrestrial_point_algorithm generic_PointLonLat).
#[local] Abbreviation on_trajectory_point :=
  (terrestrial_trajectory_point_algorithm generic_TrajectoryPoint).

(** C8: on terrestrial points and on terrestrial trajectory points,
    [interpolate], [extrapolate], [bearing], [signed_turn_angle] and
    [unsigned_turn_angle] return what the generic implementation
    returns on the underlying base points; no unit conversion is
    applied to the arguments or to the result. *)
Theorem terrestrial_algorithms_forward :
  (forall A, on_point A = spec_forwarded generic_PointLonLat A) /\
  (forall A, on_trajectory_point A = spec_forwarded generic_TrajectoryPoint A) /\
  (forall (p q : TerrestrialPoint) (t : double),
     on_point interpolate p q t
     = mkTerrestrialPoint
         (generic_PointLonLat interpolate
            (TerrestrialPoint_Superclass p) (TerrestrialPoint_Superclass q) t) /\
     on_point extrapolate p q t
     = mkTerrestrialPoint
         (generic_PointLonLat extrapolate
            (TerrestrialPoint_Superclass p) (TerrestrialPoint_Superclass q) t) /\
     on_point bearing p q
     = generic_PointLonLat bearing
         (TerrestrialPoint_Superclass p) (TerrestrialPoint_Superclass q)) /\
  (forall p q r : TerrestrialPoint,
     on_point signed_turn_angle p q r
     = generic_PointLonLat signed_turn_angle
         (TerrestrialPoint_Superclass p) (TerrestrialPoint_Superclass q)
         (TerrestrialPoint_Superclass r) /\
     on_point unsigned_turn_angle p q r
     = generic_PointLonLat unsigned_turn_angle
         (TerrestrialPoint_Superclass p) (TerrestrialPoint_Superclass q)
         (TerrestrialPoint_Superclass r)) /\
  (forall (p q : TerrestrialTrajectoryPoint) (t : double),
     on_trajectory_point interpolate p q t
     = mkTerrestrialTrajectoryPoint
         (generic_TrajectoryPoint interpolate
            (TerrestrialTrajectoryPoint_Superclass p)
            (TerrestrialTrajectoryPoint_Superclass q) t) /\
     on_trajectory_point extrapolate p q t
     = mkTerrestrialTrajectoryPoint
         (generic_TrajectoryPoint extrapolate
            (TerrestrialTrajectoryPoint_Superclass p)
            (TerrestrialTrajectoryPoint_Superclass q) t) /\
     on_trajectory_point bearing p q
     = generic_TrajectoryPoint bearing
         (TerrestrialTrajectoryPoint_Superclass p)
         (TerrestrialTrajectoryPoint_Superclass q)) /\
  (forall p q r : TerrestrialTrajectoryPoint,
     on_trajectory_point signed_turn_angle p q r
     = generic_TrajectoryPoint signed_turn_angle
         (TerrestrialTrajectoryPoint_Superclass p)
         (TerrestrialTrajectoryPoint_Superclass q)
         (TerrestrialTrajectoryPoint_Superclass r) /\
     on_trajectory_point unsigned_turn_angle p q r
     = generic_TrajectoryPoint unsigned_turn_angle
         (TerrestrialTrajectoryPoint_Superclass p)
         (TerrestrialTrajectoryPoint_Superclass q)
         (TerrestrialTrajectoryPoint_Superclass r)).
Proof.
  split; [intros A; destruct A; reflexivity|].
  split; [intros A; destruct A; reflexivity|].
  split_conj; intros; split_conj; reflexivity.
Qed.

End Delegation_facts.

(** ** Fraction sampling on an unspecialised trajectory type *)

Module PointAtFractionFacts.
Import PointAtFraction.

Section Facts.

Variable TrajectoryT : Type.
Variable sizeof : TrajectoryT -> N.
Variable value : TrajectoryT -> Type.
Variable point_type : TrajectoryT -> Type.
Variable time_fraction_specialization :
  forall T, option (apply_t TrajectoryT value point_type T).
Variable length_fraction_specialization :
  forall T, option (apply_t TrajectoryT value point_type T).

(** C9: for a trajectory type [T] with no specialisation, the call of
    [point_at_time_fraction] or [point_at_length_fraction] does not
    compile: the assertion [sizeof(T) == 0] of the primary template
    fails, [sizeof] of a type being at least one, and is reported under
    the template's message.  No function is produced, hence nothing
    that could throw when the program runs. *)
Theorem unspecialised_fraction_sampling_rejected (T : TrajectoryT) :
  (0 < sizeof T)%N ->
  (time_fraction_specialization T = None ->
   point_at_time_fraction TrajectoryT sizeof value point_type
     time_fraction_specialization T
   = CompileError
       "POINT_AT_TIME_FRACTION_NOT_IMPLEMENTED_FOR_THIS_TRAJECTORY_TYPE" /\
   forall apply,
     point_at_time_fraction TrajectoryT sizeof value point_type
       time_fraction_specialization T
     <> Compiled apply) /\
  (length_fraction_specialization T = None ->
   point_at_length_fraction TrajectoryT sizeof value point_type
     length_fraction_specialization T
   = CompileError
       "POINT_AT_LENGTH_FRACTION_NOT_IMPLEMENTED_FOR_THIS_TRAJECTORY_TYPE" /\
   forall apply,
     point_at_length_fraction TrajectoryT sizeof value point_type
       length_fraction_specialization T
     <> Compiled apply).
Proof.
  intros Hsize.
  assert (Hnz : (sizeof T =? 0)%N = false) by (apply N.eqb_neq; lia).
  split; intros Hnone.
  - unfold point_at_time_fraction, algorithms_point_at_time_fraction,
      primary_point_at_time_fraction, BOOST_MPL_ASSERT_MSG.
    rewrite Hnone, Hnz. simpl. split; [reflexivity | discriminate].
  - unfold point_at_length_fraction, algorithms_point_at_length_fraction,
      primary_point_at_length_fraction, BOOST_MPL_ASSERT_MSG.
    rewrite Hnone, Hnz. simpl. split; [reflexivity | discriminate].
Qed.

(** A specialised type compiles to the specialisation's [apply]. *)
Lemma specialised_fraction_sampling_compiles (T : TrajectoryT)
    (apply : apply_t TrajectoryT value point_type T) :
  time_fraction_specialization T = Some apply ->
  point_at_time_fraction TrajectoryT sizeof value point_type
    time_fraction_specialization T
  = Compiled apply.
Proof.
  intros Hsome.
  unfold point_at_time_fraction, algorithms_point_at_time_fraction.
  rewrite Hsome. reflexivity.
Qed.

End Facts.

Lemma unspecialised_fraction_sampling_rejected_witness :
  point_at_time_fraction sample_type sample_sizeof sample_value
    sample_point_type (fun _ => None) TerrestrialTrajectory
  = CompileError
      "POINT_AT_TIME_FRACTION_NOT_IMPLEMENTED_FOR_THIS_TRAJECTORY_TYPE" /\
  point_at_length_fraction sample_type sample_sizeof sample_value
    sample_point_type (fun _ => None) TerrestrialTrajectory
  = CompileError
      "POINT_AT_LENGTH_FRACTION_NOT_IMPLEMENTED_FOR_THIS_TRAJECTORY_TYPE".
Proof.
  assert (Hsize : (0 < sample_sizeof TerrestrialTrajectory)%N) by reflexivity.
  split.
  - apply (proj1 (unspecialised_fraction_sampling_rejected sample_type
                    sample_sizeof sample_value sample_point_type
                    (fun _ => None) (fun _ => None) TerrestrialTrajectory Hsize)).
    reflexivity.
  - apply (proj2 (unspecialised_fraction_sampling_rejected sample_type
                    sample_sizeof sample_value sample_point_type
                    (fun _ => None) (fun _ => None) TerrestrialTrajectory Hsize)).
    reflexivity.
Defined.

End PointAtFractionFacts.

(** ** More binary64 facts: signs, negation and symmetry *)

Module DoubleSymmetry.
Import Double.

(** Rounding does not look at the sign it is given. *)
Lemma binary_round_aux_negb (s : bool) (m e : Z) (l : location) :
  binary_round_aux prec emax (negb s) m e l
  = opp (binary_round_aux prec emax s m e l).
Proof.
  unfold binary_round_aux.
  destruct (shr_fexp prec emax m e l) as [mrs' e'].
  destruct (shr_fexp prec emax _ e' loc_Exact) as [mrs'' e''].
  destruct (shr_m mrs'') as [|q|q]; try reflexivity.
  destruct (e'' <=? emax - prec)%Z; reflexivity.
Qed.

Lemma binary_round_negb (s : bool) (m : positive) (e : Z) :
  binary_round prec emax (negb s) m e = opp (binary_round prec emax s m e).
Proof.
  unfold binary_round. destruct (shl_align m e _) as [mz ez].
  apply binary_round_aux_negb.
Qed.

Lemma opp_involutive (x : double) : opp (opp x) = x.
Proof. destruct x as [s|s| |s m e]; simpl; rewrite ?negb_involutive; reflexivity. Qed.

Lemma abs_opp (x : double) : abs (opp x) = abs x.
Proof. destruct x; reflexivity. Qed.

Lemma signbit_abs (x : double) : signbit (abs x) = false.
Proof. destruct x; reflexivity. Qed.

Lemma binary_normalize_opp (z e : Z) :
  z <> 0%Z ->
  binary_normalize prec emax (- z) e false
  = opp (binary_normalize prec emax z e false).
Proof.
  intros Hz. destruct z as [|p|p]; [congruence| |]; simpl.
  - apply (binary_round_negb false).
  - apply (binary_round_negb true).
Qed.

Lemma abs_binary_normalize_opp (z e : Z) :
  abs (binary_normalize prec emax (- z) e false)
  = abs (binary_normalize prec emax z e false).
Proof.
  destruct (Z.eq_dec z 0%Z) as [->|Hz]; [reflexivity|].
  rewrite (binary_normalize_opp z e Hz). apply abs_opp.
Qed.

Lemma of_Z_opp (n : Z) : n <> 0%Z -> of_Z (- n) = opp (of_Z n).
Proof. apply binary_normalize_opp. Qed.

(** [|a - b| = |b - a|], bit for bit. *)
Lemma abs_sub_comm (a b : double) : abs (sub a b) = abs (sub b a).
Proof.
  destruct a as [sa|sa| |sa ma ea], b as [sb|sb| |sb mb eb];
    try (destruct sa, sb; reflexivity); try reflexivity.
  unfold sub, SFsub. rewrite (Z.min_comm eb ea).
  set (x := cond_Zopp sa _). set (y := cond_Zopp sb _).
  replace (y - x)%Z with (- (x - y))%Z by lia.
  symmetry. apply abs_binary_normalize_opp.
Qed.

(** Addition commutes, bit for bit. *)
Lemma add_comm (a b : double) : add a b = add b a.
Proof.
  destruct a as [sa|sa| |sa ma ea], b as [sb|sb| |sb mb eb];
    try (destruct sa, sb; reflexivity); try reflexivity.
  unfold add, SFadd. rewrite (Z.min_comm eb ea), Z.add_comm. reflexivity.
Qed.

Lemma compare_antisym (a b : double) :
  SFcompare b a = option_map CompOpp (SFcompare a b).
Proof.
  destruct a as [sa|sa| |sa ma ea], b as [sb|sb| |sb mb eb];
    try (destruct sa, sb; reflexivity); try (destruct sa; reflexivity);
    try (destruct sb; reflexivity); try reflexivity.
  simpl. rewrite (Z.compare_antisym ea eb), (ZC4 mb ma).
  destruct sa, sb; simpl; try reflexivity;
    destruct (ea ?= eb)%Z; simpl; try reflexivity;
    destruct (Pos.compare_cont Eq ma mb); reflexivity.
Qed.

Lemma eqb_sym (a b : double) : eqb a b = eqb b a.
Proof.
  unfold eqb, SFeqb. rewrite (compare_antisym a b).
  destruct (SFcompare a b) as [[]|]; reflexivity.
Qed.

(** Nothing whose sign bit is clear is below a number that is zero,
    negative or NaN. *)
Lemma ltb_nonneg_nonpositive (x y : double) :
  signbit x = false -> nonpositive y = true -> ltb x y = false.
Proof.
  unfold nonpositive.
  destruct x as [[]|[]| |[] mx ex], y as [[]|[]| |[] my ey]; simpl;
    intros Hx Hy; try discriminate; reflexivity.
Qed.

(** No number is above [+infinity], and NaN is below nothing. *)
Lemma ltb_inf_l (y : double) : ltb (S754_infinity false) y = false.
Proof. destruct y as [s|s| |s m e]; try reflexivity; destruct s; reflexivity. Qed.

Lemma mul_nonpositive_l (x : double) (my : positive) (ey : Z) :
  nonpositive x = true ->
  nonpositive (mul x (S754_finite false my ey)) = true.
Proof.
  unfold nonpositive.
  destruct x as [sx|[]| |[] mx ex]; simpl; intros Hx;
    try reflexivity; try discriminate.
  destruct (DoubleFacts.binary_round_aux_sign true (Zpos (mx * my)) (ex + ey)
              loc_Exact) as [_ Hs]; [lia|].
  rewrite Hs, orb_true_r. reflexivity.
Qed.

Lemma negb_xorb_r (a b : bool) : xorb a (negb b) = negb (xorb a b).
Proof. destruct a, b; reflexivity. Qed.

Lemma negb_xorb_l (a b : bool) : xorb (negb a) b = negb (xorb a b).
Proof. destruct a, b; reflexivity. Qed.

(** Negating a factor negates the product; negating the divisor negates
    the quotient. *)
Lemma mul_opp_r (x y : double) : mul x (opp y) = opp (mul x y).
Proof.
  destruct x as [sx|sx| |sx mx ex], y as [sy|sy| |sy my ey]; simpl;
    rewrite ?negb_xorb_r; try reflexivity.
  apply binary_round_aux_negb.
Qed.

Lemma mul_opp_l (x y : double) : mul (opp x) y = opp (mul x y).
Proof.
  destruct x as [sx|sx| |sx mx ex], y as [sy|sy| |sy my ey]; simpl;
    rewrite ?negb_xorb_l; try reflexivity.
  apply binary_round_aux_negb.
Qed.

Lemma div_opp_r (x y : double) : div x (opp y) = opp (div x y).
Proof.
  destruct x as [sx|sx| |sx mx ex], y as [sy|sy| |sy my ey]; simpl;
    rewrite ?negb_xorb_r; try reflexivity.
  destruct (SFdiv_core_binary prec emax (Zpos mx) ex (Zpos my) ey)
    as [[mz ez] lz].
  apply binary_round_aux_negb.
Qed.

(** Sums and quotients of magnitudes carry no sign. *)
Lemma signbit_add_abs (a b : double) : signbit (add (abs a) (abs b)) = false.
Proof.
  destruct a as [sa|sa| |sa ma ea], b as [sb|sb| |sb mb eb]; try reflexivity.
  unfold abs, SFabs, add, SFadd. simpl cond_Zopp. simpl Z.add.
  apply DoubleFacts.binary_round_sign.
Qed.

Lemma signbit_div_nonneg (x y : double) :
  signbit x = false -> signbit y = false -> signbit (div x y) = false.
Proof.
  destruct x as [[]|[]| |[] mx ex], y as [[]|[]| |[] my ey]; simpl;
    intros Hx Hy; try discriminate; try reflexivity.
  pose proof (DoubleFacts.div_core_nonneg mx my ex ey) as Hq.
  destruct (SFdiv_core_binary prec emax (Zpos mx) ex (Zpos my) ey)
    as [[mz ez] lz].
  apply DoubleFacts.binary_round_aux_sign. exact Hq.
Qed.

(** The product of a non-negative number and a positive finite one is a
    non-negative number. *)
Lemma mul_nonneg_finite (x : double) (my : positive) (ey : Z) :
  is_nan x = false -> signbit x = false ->
  is_nan (mul x (S754_finite false my ey)) = false /\
  signbit (mul x (S754_finite false my ey)) = false.
Proof.
  destruct x as [[]|[]| |[] mx ex]; simpl; intros Hn Hs;
    try discriminate; auto.
  apply DoubleFacts.binary_round_aux_sign. lia.
Qed.

(** Zero times a finite number, and zero over a non-zero number, are
    zero. *)
Lemma mul_finite_zero (sx : bool) (mx : positive) (ex : Z) (y : double) :
  is_zero y = true -> is_zero (mul (S754_finite sx mx ex) y) = true.
Proof. destruct y; simpl; try discriminate; reflexivity. Qed.

Lemma div_zero_l (x y : double) :
  is_zero x = true -> is_nan y = false -> is_zero y = false ->
  is_zero (div x y) = true.
Proof.
  destruct x, y; simpl; try discriminate; reflexivity.
Qed.

Lemma is_zero_eqb (x : double) : is_zero x = true -> eqb x zero = true.
Proof. destruct x; simpl; try discriminate; reflexivity. Qed.

End DoubleSymmetry.

(** ** The float comparator, continued *)

(** X1: [almost_equal] does not depend on the order of its operands. *)
Theorem almost_equal_symmetric (a b tolerance : double) :
  almost_equal a b tolerance = almost_equal b a tolerance.
Proof.
  unfold almost_equal.
  rewrite (DoubleSymmetry.eqb_sym a b), (DoubleSymmetry.abs_sub_comm a b),
    (DoubleSymmetry.add_comm (Double.abs a) (Double.abs b)),
    (orb_comm (Double.eqb a (Double.of_Z 0))).
  reflexivity.
Qed.

(** X2: with a tolerance that is zero, negative or NaN, [almost_equal]
    is the exact comparison [a == b]. *)
Theorem almost_equal_nonpositive_tolerance (a b tolerance : double) :
  nonpositive tolerance = true ->
  almost_equal a b tolerance = Double.eqb a b.
Proof.
  intros Htol. unfold almost_equal.
  destruct (Double.eqb a b); [reflexivity|].
  destruct (_ || _ || _).
  - apply DoubleSymmetry.ltb_nonneg_nonpositive.
    + apply DoubleSymmetry.signbit_abs.
    + apply DoubleSymmetry.mul_nonpositive_l, Htol.
  - apply DoubleSymmetry.ltb_nonneg_nonpositive; [|exact Htol].
    apply DoubleSymmetry.signbit_div_nonneg.
    + apply DoubleSymmetry.signbit_abs.
    + apply DoubleSymmetry.signbit_add_abs.
Qed.

Lemma almost_equal_nonpositive_tolerance_witness :
  almost_equal Double.one lit_1_00002 (Double.opp Double.one)
  = Double.eqb Double.one lit_1_00002.
Proof.
  apply (almost_equal_nonpositive_tolerance Double.one lit_1_00002
           (Double.opp Double.one)).
  reflexivity.
Defined.

(** X3: an infinity is almost equal to itself and to nothing else,
    whatever the tolerance and the order of the operands. *)
Theorem almost_equal_infinity (s : bool) (b tolerance : double) :
  (almost_equal (S754_infinity s) b tolerance = true <-> b = S754_infinity s)
  /\
  (almost_equal b (S754_infinity s) tolerance = true <-> b = S754_infinity s).
Proof.
  assert (H : almost_equal (S754_infinity s) b tolerance = true
              <-> b = S754_infinity s).
  { destruct s, b as [sb|[]| |sb mb eb]; unfold almost_equal; simpl;
      try rewrite DoubleSymmetry.ltb_inf_l;
      split; intros E; try discriminate E; try reflexivity;
      rewrite DoubleSymmetry.ltb_inf_l in E;
      destruct (_ || _) in E; discriminate E. }
  split; [exact H|].
  unfold almost_equal in *.
  rewrite (DoubleSymmetry.eqb_sym b), (DoubleSymmetry.abs_sub_comm b),
    (DoubleSymmetry.add_comm (Double.abs b)),
    (orb_comm (Double.eqb b (Double.of_Z 0))).
  exact H.
Qed.

Lemma abs_sub_zero_l (s : bool) (x : double) :
  Double.abs (Double.sub (S754_zero s) x) = Double.abs x.
Proof. destruct s, x as [[]|[]| |[] m e]; reflexivity. Qed.

Lemma not_below_min_not_below_scaled (y : double) :
  Double.signbit y = false ->
  Double.ltb y Double.numeric_limits_min = false ->
  Double.ltb y (Double.mul settings.EQUALITY_RELATIVE_TOLERANCE
                  Double.numeric_limits_min) = false.
Proof.
  replace (Double.mul settings.EQUALITY_RELATIVE_TOLERANCE
             Double.numeric_limits_min)
    with (S754_finite false 45035996274 (-1074))
    by (vm_compute; reflexivity).
  unfold Double.ltb, SFltb, Double.numeric_limits_min.
  destruct y as [[]|[]| |[] m e];
    cbv [Double.signbit SFcompare]; intros Hs Hy;
    try discriminate; try reflexivity.
  destruct (e ?= -1074)%Z; [|discriminate Hy|reflexivity].
  rewrite Pos.compare_cont_spec in Hy. rewrite Pos.compare_cont_spec.
  destruct (Pos.compare_spec m 4503599627370496%positive) as [H1|H1|H1];
    [|discriminate Hy|];
    destruct (Pos.compare_spec m 45035996274%positive) as [H2|H2|H2];
    try reflexivity; exfalso.
  - subst m. discriminate H2.
  - pose proof (Pos.lt_trans _ _ _ H1 H2) as H. discriminate H.
Qed.

(** X4: at the default tolerance a zero, of either sign, is almost
    equal to no number whose magnitude is at least the smallest normal
    value [2^-1022], in either order of the operands. *)
Theorem almost_equal_zero_normal (s : bool) (x : double) :
  Double.ltb (Double.abs x) Double.numeric_limits_min = false ->
  almost_equal (S754_zero s) x settings.EQUALITY_RELATIVE_TOLERANCE = false /\
  almost_equal x (S754_zero s) settings.EQUALITY_RELATIVE_TOLERANCE = false.
Proof.
  intros Hx.
  assert (H : almost_equal (S754_zero s) x settings.EQUALITY_RELATIVE_TOLERANCE
              = false).
  { unfold almost_equal. rewrite abs_sub_zero_l.
    assert (Hne : Double.eqb (S754_zero s) x = false).
    { destruct x as [sx|[]| |[] m e]; try reflexivity.
      vm_compute in Hx. discriminate. }
    rewrite Hne.
    replace (Double.eqb (S754_zero s) (Double.of_Z 0)) with true
      by reflexivity.
    simpl orb.
    apply not_below_min_not_below_scaled;
      [apply DoubleSymmetry.signbit_abs | exact Hx]. }
  split; [exact H|].
  unfold almost_equal in *.
  rewrite (DoubleSymmetry.eqb_sym x), (DoubleSymmetry.abs_sub_comm x),
    (DoubleSymmetry.add_comm (Double.abs x)),
    (orb_comm (Double.eqb x (Double.of_Z 0))).
  exact H.
Qed.

Lemma almost_equal_zero_normal_witness :
  almost_equal Double.zero lit_1e_10 settings.EQUALITY_RELATIVE_TOLERANCE
  = false /\
  almost_equal lit_1e_10 Double.zero settings.EQUALITY_RELATIVE_TOLERANCE
  = false.
Proof.
  apply (almost_equal_zero_normal false lit_1e_10).
  vm_compute. reflexivity.
Defined.

(** X5: [almost_zero] is false for every input when [epsilon] is zero,
    negative or NaN, false for an infinite input whatever [epsilon],
    and blind to the sign of its input. *)
Theorem almost_zero_edges (z epsilon : double) :
  (nonpositive epsilon = true -> almost_zero z epsilon = false) /\
  (Double.is_finite z = false -> almost_zero z epsilon = false) /\
  almost_zero (Double.opp z) epsilon = almost_zero z epsilon.
Proof.
  unfold almost_zero. split_conj.
  - intros He. apply DoubleSymmetry.ltb_nonneg_nonpositive;
      [apply DoubleSymmetry.signbit_abs | exact He].
  - destruct z as [sz|sz| |sz m e]; simpl; try discriminate; intros _.
    + apply DoubleSymmetry.ltb_inf_l.
    + reflexivity.
  - rewrite DoubleSymmetry.abs_opp. reflexivity.
Qed.

Lemma almost_zero_edges_witness :
  almost_zero lit_1e_10 Double.zero = false /\
  almost_zero (S754_infinity true) settings.EQUALITY_RELATIVE_TOLERANCE = false.
Proof.
  split.
  - apply (proj1 (almost_zero_edges lit_1e_10 Double.zero)). reflexivity.
  - apply (proj1 (proj2 (almost_zero_edges (S754_infinity true)
                           settings.EQUALITY_RELATIVE_TOLERANCE))).
    reflexivity.
Defined.

(** ** Terrestrial distance, length and speed, continued *)

Lemma quot_sub_opp (a b c : Z) :
  c <> 0%Z -> ((a - b) ÷ c = - ((b - a) ÷ c))%Z.
Proof.
  intros Hc. replace (a - b)%Z with (- (b - a))%Z by lia.
  apply Z.quot_opp_l, Hc.
Qed.

Lemma elapsed_seconds_reversed (from to : TerrestrialTrajectoryPoint) :
  elapsed_seconds to from = (- elapsed_seconds from to)%Z.
Proof.
  unfold elapsed_seconds, total_seconds, timestamp_minus.
  apply quot_sub_opp. discriminate.
Qed.

Lemma literal_3600 :
  Double.literal 3600 0 = S754_finite false 7916483719987200 (-41).
Proof. vm_compute. reflexivity. Qed.

Section Speed_facts.

Variable boost_geometry_distance : PointLonLat -> PointLonLat -> double.
Variable boost_geometry_length : list PointLonLat -> double.
Variable EARTH_RADIUS_IN_KM : double.

#[local] Abbreviation distance' :=
  (distance boost_geometry_distance EARTH_RADIUS_IN_KM).
#[local] Abbreviation speed_between' :=
  (speed_between boost_geometry_distance EARTH_RADIUS_IN_KM).
#[local] Abbreviation length' :=
  (algorithms.length boost_geometry_length EARTH_RADIUS_IN_KM).

Lemma radians_to_km_nonnegative (radians : double) :
  positive_finite EARTH_RADIUS_IN_KM = true ->
  Double.is_nan radians = false -> Double.signbit radians = false ->
  Double.is_nan (radians_to_km EARTH_RADIUS_IN_KM radians) = false /\
  Double.signbit (radians_to_km EARTH_RADIUS_IN_KM radians) = false.
Proof.
  unfold radians_to_km.
  destruct EARTH_RADIUS_IN_KM as [sr|sr| |[] mr er]; try discriminate.
  intros _. apply DoubleSymmetry.mul_nonneg_finite.
Qed.

(** X6: with a positive finite Earth radius, the terrestrial distance
    of two points and the terrestrial length of a trajectory are
    non-negative numbers, never NaN, whenever the angle that the
    geometry primitive returns is a non-negative number: rounding,
    overflow and underflow in the conversion to kilometers keep the
    sign. *)
Theorem terrestrial_distance_length_nonnegative
    {Geom1 Geom2 : Type} `{Geometry Geom1} `{Geometry Geom2}
    (from : Geom1) (to : Geom2) (trajectory : algorithms.trajectory_type) :
  positive_finite EARTH_RADIUS_IN_KM = true ->
  (Double.is_nan
     (boost_geometry_distance (as_PointLonLat from) (as_PointLonLat to))
   = false ->
   Double.signbit
     (boost_geometry_distance (as_PointLonLat from) (as_PointLonLat to))
   = false ->
   Double.is_nan (distance' from to) = false /\
   Double.signbit (distance' from to) = false) /\
  (Double.is_nan (boost_geometry_length (map as_PointLonLat trajectory))
   = false ->
   Double.signbit (boost_geometry_length (map as_PointLonLat trajectory))
   = false ->
   Double.is_nan (length' trajectory) = false /\
   Double.signbit (length' trajectory) = false).
Proof.
  intros HR. split; intros Hn Hs.
  - unfold distance. apply radians_to_km_nonnegative; assumption.
  - unfold algorithms.length. apply radians_to_km_nonnegative; assumption.
Qed.

(** X7: swapping the two points negates the speed, the distance
    primitive being symmetric on them; when the elapsed seconds are
    almost zero the speed is [+0] in both directions. *)
Theorem speed_between_reversed (from to : TerrestrialTrajectoryPoint) :
  boost_geometry_distance (as_PointLonLat from) (as_PointLonLat to)
  = boost_geometry_distance (as_PointLonLat to) (as_PointLonLat from) ->
  speed_between' to from
  = if almost_zero (Double.of_Z (elapsed_seconds from to))
         settings.EQUALITY_RELATIVE_TOLERANCE
    then Double.zero
    else Double.opp (speed_between' from to).
Proof.
  intros Hsym. unfold speed_between, distance.
  fold (elapsed_seconds to from). fold (elapsed_seconds from to).
  rewrite (elapsed_seconds_reversed from to), <- Hsym.
  destruct (Z.eq_dec (elapsed_seconds from to) 0%Z) as [E|Hn].
  - rewrite E. reflexivity.
  - rewrite (DoubleSymmetry.of_Z_opp _ Hn).
    unfold almost_zero at 1. rewrite DoubleSymmetry.abs_opp.
    fold (almost_zero (Double.of_Z (elapsed_seconds from to))
            settings.EQUALITY_RELATIVE_TOLERANCE).
    destruct (almost_zero _ _); [reflexivity|].
    apply DoubleSymmetry.div_opp_r.
Qed.

(** X8: when the distance of the two points is zero the speed is zero,
    whatever their timestamps. *)
Theorem speed_between_zero_distance (from to : TerrestrialTrajectoryPoint) :
  Double.is_zero (distance' from to) = true ->
  Double.is_zero (speed_between' from to) = true /\
  Double.eqb (speed_between' from to) Double.zero = true.
Proof.
  intros Hd.
  assert (Hz : Double.is_zero (speed_between' from to) = true).
  { unfold speed_between. fold (elapsed_seconds from to).
    destruct (almost_zero _ _) eqn:Haz; [reflexivity|].
    rewrite literal_3600. apply DoubleSymmetry.div_zero_l.
    - apply DoubleSymmetry.mul_finite_zero, Hd.
    - apply DoubleFacts.of_Z_sign.
    - apply not_almost_zero_not_zero, Haz. }
  split; [exact Hz | apply DoubleSymmetry.is_zero_eqb, Hz].
Qed.

(** X9: two points whose timestamps are less than one second apart
    have speed [+0] whatever their distance, be it infinite or NaN;
    once the elapsed seconds are not almost zero, a NaN distance gives
    a NaN speed. *)
Theorem speed_between_guard (from to : TerrestrialTrajectoryPoint) :
  ((Z.abs (timestamp to - timestamp from) < 1000000)%Z ->
   speed_between' from to = Double.zero) /\
  (almost_zero (Double.of_Z (elapsed_seconds from to))
     settings.EQUALITY_RELATIVE_TOLERANCE = false ->
   Double.is_nan (distance' from to) = true ->
   Double.is_nan (speed_between' from to) = true).
Proof.
  split.
  - intros Hlt. unfold speed_between, total_seconds, timestamp_minus.
    replace ((timestamp to - timestamp from) ÷ 1000000)%Z with 0%Z.
    + reflexivity.
    + symmetry. apply Z.quot_small_iff; [discriminate | exact Hlt].
  - intros Haz Hnan. unfold speed_between. fold (elapsed_seconds from to).
    rewrite Haz.
    destruct (distance' from to); try discriminate Hnan.
    reflexivity.
Qed.

(** X10: [speed_between] depends on its two points only through their
    coordinates and the difference of their timestamps: object ids and
    properties are not read, and moving both timestamps by the same
    amount changes nothing. *)
Theorem speed_between_reads_coordinates_and_elapsed_time
    (from to from' to' : TerrestrialTrajectoryPoint) :
  as_PointLonLat from = as_PointLonLat from' ->
  as_PointLonLat to = as_PointLonLat to' ->
  (timestamp to - timestamp from = timestamp to' - timestamp from')%Z ->
  speed_between' from to = speed_between' from' to'.
Proof.
  intros Hfrom Hto Ht.
  unfold speed_between, distance, timestamp_minus.
  rewrite Hfrom, Hto, Ht. reflexivity.
Qed.

End Speed_facts.

Lemma terrestrial_distance_length_nonnegative_witness :
  (Double.is_nan (distance meridian_angle (Double.of_Z 6371) fix_0h fix_1h)
   = false /\
   Double.signbit (distance meridian_angle (Double.of_Z 6371) fix_0h fix_1h)
   = false) /\
  (Double.is_nan
     (algorithms.length meridian_length (Double.of_Z 6371)
        [fix_0h; fix_1h; fix_1h_far]) = false /\
   Double.signbit
     (algorithms.length meridian_length (Double.of_Z 6371)
        [fix_0h; fix_1h; fix_1h_far]) = false).
Proof.
  pose (at_radius :=
          terrestrial_distance_length_nonnegative meridian_angle
            meridian_length (Double.of_Z 6371) fix_0h fix_1h
            [fix_0h; fix_1h; fix_1h_far] eq_refl).
  split.
  - apply (proj1 at_radius); vm_compute; reflexivity.
  - apply (proj2 at_radius); vm_compute; reflexivity.
Defined.

Lemma speed_between_reversed_witness :
  speed_between meridian_angle (Double.of_Z 6371) fix_1h fix_0h
  = Double.opp (speed_between meridian_angle (Double.of_Z 6371) fix_0h fix_1h).
Proof.
  apply (speed_between_reversed meridian_angle (Double.of_Z 6371)
           fix_0h fix_1h).
  vm_compute. reflexivity.
Defined.

Lemma speed_between_zero_distance_witness :
  Double.is_zero
    (speed_between meridian_angle (Double.of_Z 6371) fix_0h
       (fix_at 35 3600000000%Z)) = true /\
  Double.eqb
    (speed_between meridian_angle (Double.of_Z 6371) fix_0h
       (fix_at 35 3600000000%Z)) Double.zero = true.
Proof.
  apply (speed_between_zero_distance meridian_angle (Double.of_Z 6371)
           fix_0h (fix_at 35 3600000000%Z)).
  vm_compute. reflexivity.
Defined.

Lemma speed_between_guard_witness :
  speed_between meridian_angle (Double.of_Z 6371) fix_1h_far fix_half_second
  = Double.zero /\
  Double.is_nan
    (speed_between (fun _ _ => S754_nan) (Double.of_Z 6371) fix_0h fix_1h)
  = true.
Proof.
  split.
  - apply (proj1 (speed_between_guard meridian_angle (Double.of_Z 6371)
                    fix_1h_far fix_half_second)).
    vm_compute. reflexivity.
  - apply (proj2 (speed_between_guard (fun _ _ => S754_nan)
                    (Double.of_Z 6371) fix_0h fix_1h)).
    + vm_compute. reflexivity.
    + vm_compute. reflexivity.
Defined.

(** ** The ECEF transform and its wrappers, continued *)

Lemma add_nan_r (x : double) : Double.add x S754_nan = S754_nan.
Proof. destruct x; reflexivity. Qed.

Lemma mul_nan_r (x : double) : Double.mul x S754_nan = S754_nan.
Proof. destruct x; reflexivity. Qed.

Lemma mul_nan_l (y : double) : Double.mul S754_nan y = S754_nan.
Proof. reflexivity. Qed.

Section ECEF_more_facts.

Variable libm_sin libm_cos : double -> double.
Variable conversions_radians : double -> double.
Variable unspecified_placeholder : double.

Let binary64 : Arith double := Arith_double libm_sin libm_cos.

#[local] Abbreviation ECEF' :=
  (ECEF libm_sin libm_cos conversions_radians unspecified_placeholder).

(** X11: the outcome of [ECEF(ratio, s)] depends on the point only
    through its two coordinates and what is stored under [s]: the
    object id, the timestamp and every other property are not read. *)
Theorem ECEF_reads_coordinates_and_named_property
    (ratio : double) (s : string) (p q : TerrestrialTrajectoryPoint) :
  as_PointLonLat p = as_PointLonLat q ->
  property_store p !! s = property_store q !! s ->
  fst (ECEF' ratio s p) = fst (ECEF' ratio s q).
Proof.
  unfold property_store, ECEF, real_property. intros -> ->.
  destruct (Properties (TerrestrialTrajectoryPoint_Superclass q) !! s)
    as [[v|t|t]|]; reflexivity.
Qed.

(** X12: a NaN stored as the altitude is no error: [ECEF(ratio, s)]
    returns normally, and the three coordinates of the point it returns
    are NaN. *)
Theorem ECEF_nan_altitude
    (ratio : double) (s : string) (p : TerrestrialTrajectoryPoint) :
  property_store p !! s = Some (RealProperty S754_nan) ->
  ECEF' ratio s p
  = (Returns (mkPointCartesian3 S754_nan S754_nan S754_nan : PointCartesian3 double),
     p).
Proof.
  intros Hs.
  rewrite (ECEF_present libm_sin libm_cos conversions_radians
             unspecified_placeholder ratio s p S754_nan Hs).
  unfold ECEF_from_km, Arith_double;
    cbn [literal add sub mul div sqrt sin cos].
  rewrite mul_nan_r, !add_nan_r. reflexivity.
Qed.

(** X13: negating the latitude mirrors the ECEF point in the equatorial
    plane ([x] and [y] unchanged, [z] negated), and negating the
    longitude mirrors it in the plane of the prime meridian ([y]
    negated, [x] and [z] unchanged), bit for bit, the library's [sin]
    being odd and its [cos] even at the angle negated. *)
Theorem ECEF_from_km_mirror (lon lat alt : double) :
  (libm_sin (Double.opp lat) = Double.opp (libm_sin lat) ->
   libm_cos (Double.opp lat) = libm_cos lat ->
   ECEF_from_km (H := binary64) lon (Double.opp lat) alt
   = mkPointCartesian3
       (pt0 (ECEF_from_km (H := binary64) lon lat alt))
       (pt1 (ECEF_from_km (H := binary64) lon lat alt))
       (Double.opp (pt2 (ECEF_from_km (H := binary64) lon lat alt)))) /\
  (libm_sin (Double.opp lon) = Double.opp (libm_sin lon) ->
   libm_cos (Double.opp lon) = libm_cos lon ->
   ECEF_from_km (H := binary64) (Double.opp lon) lat alt
   = mkPointCartesian3
       (pt0 (ECEF_from_km (H := binary64) lon lat alt))
       (Double.opp (pt1 (ECEF_from_km (H := binary64) lon lat alt)))
       (pt2 (ECEF_from_km (H := binary64) lon lat alt))).
Proof.
  split; intros Hsin Hcos;
    unfold ECEF_from_km, binary64, Arith_double;
    cbn [literal add sub mul div sqrt sin cos pt0 pt1 pt2];
    rewrite Hsin, Hcos.
  - rewrite !DoubleSymmetry.mul_opp_r, DoubleSymmetry.mul_opp_l,
      DoubleSymmetry.opp_involutive.
    reflexivity.
  - rewrite DoubleSymmetry.mul_opp_r. reflexivity.
Qed.

End ECEF_more_facts.

Lemma ECEF_reads_coordinates_and_named_property_witness :
  fst (ECEF taylor_sin taylor_cos radians_by_factor S754_nan
         (Double.literal 1 3) "altitude" sample_point)
  = fst (ECEF taylor_sin taylor_cos radians_by_factor S754_nan
           (Double.literal 1 3) "altitude" sample_point_later).
Proof.
  apply (ECEF_reads_coordinates_and_named_property taylor_sin taylor_cos
           radians_by_factor S754_nan (Double.literal 1 3) "altitude"
           sample_point sample_point_later).
  - reflexivity.
  - vm_compute. reflexivity.
Defined.

Lemma ECEF_nan_altitude_witness :
  ECEF_from_feet taylor_sin taylor_cos radians_by_factor Double.zero
    "altitude" nan_altitude_point
  = (Returns (mkPointCartesian3 S754_nan S754_nan S754_nan), nan_altitude_point).
Proof.
  apply (ECEF_nan_altitude taylor_sin taylor_cos radians_by_factor Double.zero
           (Double.div (Double.literal 1 0)
              (Double.literal 3280839895013123 12))
           "altitude" nan_altitude_point).
  vm_compute. reflexivity.
Defined.

Lemma ECEF_from_km_mirror_witness :
  ECEF_from_km (H := Arith_double taylor_sin taylor_cos)
    (radians_by_factor (Double.opp (Double.literal 1065 1)))
    (Double.opp (radians_by_factor (Double.of_Z 35))) Double.one
  = mkPointCartesian3
      (pt0 (ECEF_from_km (H := Arith_double taylor_sin taylor_cos)
              (radians_by_factor (Double.opp (Double.literal 1065 1)))
              (radians_by_factor (Double.of_Z 35)) Double.one))
      (pt1 (ECEF_from_km (H := Arith_double taylor_sin taylor_cos)
              (radians_by_factor (Double.opp (Double.literal 1065 1)))
              (radians_by_factor (Double.of_Z 35)) Double.one))
      (Double.opp
         (pt2 (ECEF_from_km (H := Arith_double taylor_sin taylor_cos)
                 (radians_by_factor (Double.opp (Double.literal 1065 1)))
                 (radians_by_factor (Double.of_Z 35)) Double.one))) /\
  ECEF_from_km (H := Arith_double taylor_sin taylor_cos)
    (Double.opp (radians_by_factor (Double.literal 1065 1)))
    (radians_by_factor (Double.of_Z 35)) Double.one
  = mkPointCartesian3
      (pt0 (ECEF_from_km (H := Arith_double taylor_sin taylor_cos)
              (radians_by_factor (Double.literal 1065 1))
              (radians_by_factor (Double.of_Z 35)) Double.one))
      (Double.opp
         (pt1 (ECEF_from_km (H := Arith_double taylor_sin taylor_cos)
                 (radians_by_factor (Double.literal 1065 1))
                 (radians_by_factor (Double.of_Z 35)) Double.one)))
      (pt2 (ECEF_from_km (H := Arith_double taylor_sin taylor_cos)
              (radians_by_factor (Double.literal 1065 1))
              (radians_by_factor (Double.of_Z 35)) Double.one)).
Proof.
  split.
  - apply (proj1 (ECEF_from_km_mirror taylor_sin taylor_cos _ _ _)).
    + vm_compute. reflexivity.
    + vm_compute. reflexivity.
  - apply (proj2 (ECEF_from_km_mirror taylor_sin taylor_cos _ _ _)).
    + vm_compute. reflexivity.
    + vm_compute. reflexivity.
Defined.

(** X14: read in exact real arithmetic, [ECEF_from_km(lon, lat, 0)]
    lies on the WGS84 ellipsoid of semi-major axis [a = 6378.137] and
    squared eccentricity [e2]:
    [x^2 / a^2 + y^2 / a^2 + z^2 / (a^2 (1 - e2)) = 1], for every
    longitude and latitude. *)
Theorem ECEF_from_km_on_ellipsoid (lon lat : R) :
  let a := 6378.137%R in
  let e2 := (8.1819190842622e-2 * 8.1819190842622e-2)%R in
  let P := ECEF_from_km (H := Arith_R) lon lat 0%R in
  ((pt0 P)² / a² + (pt1 P)² / a² + (pt2 P)² / (a² * (1 - e2)) = 1)%R.
Proof.
  assert (Hone : (IZR 1 / IZR (10 ^ 0) = 1)%R) by (simpl; lra).
  assert (Ha : (IZR 6378137 / IZR (10 ^ 3) = 6378.137)%R) by (simpl; lra).
  assert (He : (IZR 81819190842622 / IZR (10 ^ 15) = 8.1819190842622e-2)%R)
    by (simpl; lra).
  cbv zeta.
  unfold ECEF_from_km, Arith_R;
    cbn [literal add sub mul div sqrt sin cos pt0 pt1 pt2].
  rewrite Hone, Ha, He.
  set (a := 6378.137%R).
  set (e := 8.1819190842622e-2%R).
  set (s := Rtrigo_def.sin lat). set (c := Rtrigo_def.cos lat).
  set (sl := Rtrigo_def.sin lon). set (cl := Rtrigo_def.cos lon).
  assert (Hsc : (s * s + c * c = 1)%R).
  { subst s c. pose proof (sin2_cos2 lat) as H. unfold Rsqr in H. exact H. }
  assert (Hlon : (sl * sl + cl * cl = 1)%R).
  { subst sl cl. pose proof (sin2_cos2 lon) as H. unfold Rsqr in H. exact H. }
  assert (He2 : (0 < e * e < 1)%R) by (subst e; lra).
  assert (Hs2 : (0 <= s * s <= 1)%R) by nra.
  set (w := (1 - e * e * s * s)%R).
  assert (Hw : (0 < w)%R) by (subst w; nra).
  set (r := R_sqrt.sqrt w).
  assert (Hr : (r * r = w)%R) by (apply sqrt_sqrt; lra).
  assert (Hr0 : (0 < r)%R) by (apply sqrt_lt_R0; exact Hw).
  assert (Ha0 : (a <> 0)%R) by (subst a; lra).
  unfold Rsqr. clearbody a e s c sl cl r.
  replace ((a / r + 0) * c * cl * ((a / r + 0) * c * cl) / (a * a) +
           (a / r + 0) * c * sl * ((a / r + 0) * c * sl) / (a * a) +
           (a / r * (1 - e * e) + 0) * s * ((a / r * (1 - e * e) + 0) * s) /
           (a * a * (1 - e * e)))%R
    with ((c * c * (sl * sl + cl * cl) + (1 - e * e) * (s * s)) / (r * r))%R
    by (field; repeat split; lra).
  rewrite Hlon, Hr.
  replace (c * c)%R with (1 - s * s)%R by lra.
  subst w. field. lra.
Qed.

(** ** Fraction sampling, continued *)

Module PointAtFractionMoreFacts.
Import PointAtFraction.

Section Facts.

Variable TrajectoryT : Type.
Variable sizeof : TrajectoryT -> N.
Variable value : TrajectoryT -> Type.
Variable point_type : TrajectoryT -> Type.
Variable time_fraction_specialization :
  forall T, option (apply_t TrajectoryT value point_type T).
Variable length_fraction_specialization :
  forall T, option (apply_t TrajectoryT value point_type T).

(** X15: the two templates are specialised independently.  A type that
    specialises [point_at_time_fraction] alone compiles the time
    sampler to exactly its [apply], the primary template's assertion
    not being instantiated, while its length sampler is still rejected
    under the length template's message. *)
Theorem fraction_templates_independent (T : TrajectoryT)
    (apply : apply_t TrajectoryT value point_type T) :
  time_fraction_specialization T = Some apply ->
  length_fraction_specialization T = None ->
  (0 < sizeof T)%N ->
  point_at_time_fraction TrajectoryT sizeof value point_type
    time_fraction_specialization T
  = Compiled apply /\
  point_at_length_fraction TrajectoryT sizeof value point_type
    length_fraction_specialization T
  = CompileError
      "POINT_AT_LENGTH_FRACTION_NOT_IMPLEMENTED_FOR_THIS_TRAJECTORY_TYPE".
Proof.
  intros Htime Hlength Hsize.
  assert (Hnz : (sizeof T =? 0)%N = false) by (apply N.eqb_neq; lia).
  split.
  - unfold point_at_time_fraction, algorithms_point_at_time_fraction.
    rewrite Htime. reflexivity.
  - unfold point_at_length_fraction, algorithms_point_at_length_fraction,
      primary_point_at_length_fraction, BOOST_MPL_ASSERT_MSG.
    rewrite Hlength, Hnz. reflexivity.
Qed.

End Facts.

Lemma fraction_templates_independent_witness :
  point_at_time_fraction sample_type sample_sizeof sample_value
    sample_point_type only_time_specialization TerrestrialTrajectory
  = Compiled first_point /\
  point_at_length_fraction sample_type sample_sizeof sample_value
    sample_point_type (fun _ => None) TerrestrialTrajectory
  = CompileError
      "POINT_AT_LENGTH_FRACTION_NOT_IMPLEMENTED_FOR_THIS_TRAJECTORY_TYPE".
Proof.
  apply (fraction_templates_independent sample_type sample_sizeof
           sample_value sample_point_type only_time_specialization
           (fun _ => None) TerrestrialTrajectory first_point).
  - reflexivity.
  - reflexivity.
  - reflexivity.
Defined.

End PointAtFractionMoreFacts.

Lemma speed_between_reads_coordinates_and_elapsed_time_witness :
  speed_between meridian_angle (Double.of_Z 6371) fix_0h fix_1h
  = speed_between meridian_angle (Double.of_Z 6371)
      (mkTerrestrialTrajectoryPoint
         (mkTrajectoryPoint
            (base_point (TerrestrialTrajectoryPoint_Superclass fix_0h))
            "N54321" 86400000000%Z
            (<["altitude" := RealProperty (Double.of_Z 10000)]> ∅)))
      (mkTerrestrialTrajectoryPoint
         (mkTrajectoryPoint
            (base_point (TerrestrialTrajectoryPoint_Superclass fix_1h))
            "N54321" 90000000000%Z ∅)).
Proof.
  apply (speed_between_reads_coordinates_and_elapsed_time meridian_angle
           (Double.of_Z 6371)).
  - reflexivity.
  - reflexivity.
  - reflexivity.
Defined.
